(** * blih: the signed request protocol of the Bocal Lightweight Interface

    A shallow embedding of [blih/__init__.py]: the signer [sign_data], the
    dispatcher [blih] and the command [repository_create], together with the
    parts of the Python standard library they rest on ([str] encoding,
    [hashlib.sha512], [hmac], [json.dumps]).

    Python values are modelled as follows.
    - a [str] is the list of its Unicode code points, each a [Z];
    - a [bytes] object is a list of octets, each a [Z] in [0, 256);
    - [None], [bool], [int], [str], [list] and [dict] objects form the
      inductive type [value]; a [dict] keeps its items in insertion order;
    - code that prompts, talks to the network, logs, prints, raises or calls
      [sys.exit] runs in the monad [M], which threads the trace of observable
      events and ends in a returned value, a raised exception or an exit
      status. *)

From Stdlib Require Import ZArith List Lia Bool String Ascii.
From Stdlib Require Import Permutation Sorted DecimalString.
Import ListNotations.
Local Open Scope Z_scope.

(** ** Strings and bytes *)

Module Py.

(** A Python [str]: the sequence of its code points. *)
Definition pystr := list Z.

(** A Python [bytes]: a sequence of octets. *)
Definition bytes := list Z.

(** The [str] denoted by an ASCII literal of the source. *)
Definition str (s : string) : pystr :=
  map (fun a => Z.of_N (N_of_ascii a)) (list_ascii_of_string s).

(** [s.encode('utf8')] for one code point; lone surrogates are refused
    ([UnicodeEncodeError]). *)
Definition utf8_char (c : Z) : option bytes :=
  if c <? 0x80 then Some [c]
  else if c <? 0x800 then
    Some [Z.lor 0xC0 (Z.shiftr c 6); Z.lor 0x80 (Z.land c 0x3F)]
  else if (0xD800 <=? c) && (c <=? 0xDFFF) then None
  else if c <? 0x10000 then
    Some [Z.lor 0xE0 (Z.shiftr c 12);
          Z.lor 0x80 (Z.land (Z.shiftr c 6) 0x3F);
          Z.lor 0x80 (Z.land c 0x3F)]
  else
    Some [Z.lor 0xF0 (Z.shiftr c 18);
          Z.lor 0x80 (Z.land (Z.shiftr c 12) 0x3F);
          Z.lor 0x80 (Z.land (Z.shiftr c 6) 0x3F);
          Z.lor 0x80 (Z.land c 0x3F)].

(** [bytes(s, 'utf8')]: [None] stands for [UnicodeEncodeError]. *)
Fixpoint utf8 (s : pystr) : option bytes :=
  match s with
  | [] => Some []
  | c :: s' =>
      match utf8_char c, utf8 s' with
      | Some b, Some bs => Some (b ++ bs)
      | _, _ => None
      end
  end.

(** One lowercase hexadecimal digit, as a code point. *)
Definition hexdigit (n : Z) : Z :=
  if n <? 10 then 48 + n else 87 + n.

(** The two lowercase hexadecimal digits of an octet. *)
Definition hex_byte (b : Z) : pystr :=
  [hexdigit (Z.shiftr b 4 mod 16); hexdigit (b mod 16)].

(** [b.hex()], the rendering used by [hexdigest()]. *)
Definition hex (b : bytes) : pystr := flat_map hex_byte b.

(** A code point of [0-9a-f]. *)
Definition is_lower_hex (c : Z) : Prop :=
  (48 <= c <= 57) \/ (97 <= c <= 102).

End Py.

(** ** SHA-512 (FIPS 180-4), the digest behind [hashlib.sha512] *)

Module SHA512.

Definition mask64 : Z := 0xFFFFFFFFFFFFFFFF.

Definition add64 (x y : Z) : Z := Z.land (x + y) mask64.

Definition rotr (n x : Z) : Z :=
  Z.land (Z.lor (Z.shiftr x n) (Z.shiftl x (64 - n))) mask64.

Definition shr (n x : Z) : Z := Z.shiftr x n.

Definition Ch (x y z : Z) : Z :=
  Z.lxor (Z.land x y) (Z.land (Z.lxor x mask64) z).

Definition Maj (x y z : Z) : Z :=
  Z.lxor (Z.lxor (Z.land x y) (Z.land x z)) (Z.land y z).

Definition Sigma0 (x : Z) : Z :=
  Z.lxor (Z.lxor (rotr 28 x) (rotr 34 x)) (rotr 39 x).

Definition Sigma1 (x : Z) : Z :=
  Z.lxor (Z.lxor (rotr 14 x) (rotr 18 x)) (rotr 41 x).

Definition sigma0 (x : Z) : Z :=
  Z.lxor (Z.lxor (rotr 1 x) (rotr 8 x)) (shr 7 x).

Definition sigma1 (x : Z) : Z :=
  Z.lxor (Z.lxor (rotr 19 x) (rotr 61 x)) (shr 6 x).

Definition K : list Z :=
  [ 0x428a2f98d728ae22; 0x7137449123ef65cd; 0xb5c0fbcfec4d3b2f; 0xe9b5dba58189dbbc;
    0x3956c25bf348b538; 0x59f111f1b605d019; 0x923f82a4af194f9b; 0xab1c5ed5da6d8118;
    0xd807aa98a3030242; 0x12835b0145706fbe; 0x243185be4ee4b28c; 0x550c7dc3d5ffb4e2;
    0x72be5d74f27b896f; 0x80deb1fe3b1696b1; 0x9bdc06a725c71235; 0xc19bf174cf692694;
    0xe49b69c19ef14ad2; 0xefbe4786384f25e3; 0x0fc19dc68b8cd5b5; 0x240ca1cc77ac9c65;
    0x2de92c6f592b0275; 0x4a7484aa6ea6e483; 0x5cb0a9dcbd41fbd4; 0x76f988da831153b5;
    0x983e5152ee66dfab; 0xa831c66d2db43210; 0xb00327c898fb213f; 0xbf597fc7beef0ee4;
    0xc6e00bf33da88fc2; 0xd5a79147930aa725; 0x06ca6351e003826f; 0x142929670a0e6e70;
    0x27b70a8546d22ffc; 0x2e1b21385c26c926; 0x4d2c6dfc5ac42aed; 0x53380d139d95b3df;
    0x650a73548baf63de; 0x766a0abb3c77b2a8; 0x81c2c92e47edaee6; 0x92722c851482353b;
    0xa2bfe8a14cf10364; 0xa81a664bbc423001; 0xc24b8b70d0f89791; 0xc76c51a30654be30;
    0xd192e819d6ef5218; 0xd69906245565a910; 0xf40e35855771202a; 0x106aa07032bbd1b8;
    0x19a4c116b8d2d0c8; 0x1e376c085141ab53; 0x2748774cdf8eeb99; 0x34b0bcb5e19b48a8;
    0x391c0cb3c5c95a63; 0x4ed8aa4ae3418acb; 0x5b9cca4f7763e373; 0x682e6ff3d6b2b8a3;
    0x748f82ee5defb2fc; 0x78a5636f43172f60; 0x84c87814a1f0ab72; 0x8cc702081a6439ec;
    0x90befffa23631e28; 0xa4506cebde82bde9; 0xbef9a3f7b2c67915; 0xc67178f2e372532b;
    0xca273eceea26619c; 0xd186b8c721c0c207; 0xeada7dd6cde0eb1e; 0xf57d4f7fee6ed178;
    0x06f067aa72176fba; 0x0a637dc5a2c898a6; 0x113f9804bef90dae; 0x1b710b35131c471b;
    0x28db77f523047d84; 0x32caab7b40c72493; 0x3c9ebe0a15c9bebc; 0x431d67c49c100d4c;
    0x4cc5d4becb3e42b6; 0x597f299cfc657e2a; 0x5fcb6fab3ad6faec; 0x6c44198c4a475817 ].

(** The eight working variables, also the chaining value. *)
Record state := mkState
  { sa : Z; sb : Z; sc : Z; sd : Z; se : Z; sf : Z; sg : Z; sh : Z }.

Definition H0 : state :=
  mkState 0x6a09e667f3bcc908 0xbb67ae8584caa73b 0x3c6ef372fe94f82b
          0xa54ff53a5f1d36f1 0x510e527fade682d1 0x9b05688c2b3e6c1f
          0x1f83d9abfb41bd6b 0x5be0cd19137e2179.

(** Big-endian value of a run of octets. *)
Definition be_word (bs : list Z) : Z :=
  fold_left (fun acc b => Z.lor (Z.shiftl acc 8) b) bs 0.

(** The [n] low octets of [x], most significant first. *)
Fixpoint be_bytes (n : nat) (x : Z) : list Z :=
  match n with
  | O => []
  | S n' => be_bytes n' (Z.shiftr x 8) ++ [Z.land x 0xFF]
  end.

(** Padding: a one bit, zeros up to 112 mod 128, the bit length on 128 bits. *)
Definition pad (msg : list Z) : list Z :=
  let len := Z.of_nat (List.length msg) in
  let zeros := Z.to_nat ((111 - len) mod 128) in
  msg ++ [0x80] ++ repeat 0 zeros ++ be_bytes 16 (8 * len).

(** The sixteen words of a 128-octet block. *)
Fixpoint words (n : nat) (block : list Z) : list Z :=
  match n with
  | O => []
  | S n' => be_word (firstn 8 block) :: words n' (skipn 8 block)
  end.

(** The message schedule, newest word first: [w] holds W(t-1), W(t-2), ... *)
Fixpoint schedule (n : nat) (w : list Z) : list Z :=
  match n with
  | O => w
  | S n' =>
      let wt := add64 (add64 (add64 (sigma1 (nth 1 w 0)) (nth 6 w 0))
                             (sigma0 (nth 14 w 0))) (nth 15 w 0) in
      schedule n' (wt :: w)
  end.

Definition round (s : state) (kw : Z * Z) : state :=
  let (k, w) := kw in
  let t1 := add64 (add64 (add64 (add64 (sh s) (Sigma1 (se s)))
                                (Ch (se s) (sf s) (sg s))) k) w in
  let t2 := add64 (Sigma0 (sa s)) (Maj (sa s) (sb s) (sc s)) in
  mkState (add64 t1 t2) (sa s) (sb s) (sc s)
          (add64 (sd s) t1) (se s) (sf s) (sg s).

Definition compress (h : state) (block : list Z) : state :=
  let w := rev (schedule 64 (rev (words 16 block))) in
  let s := fold_left round (combine K w) h in
  mkState (add64 (sa h) (sa s)) (add64 (sb h) (sb s))
          (add64 (sc h) (sc s)) (add64 (sd h) (sd s))
          (add64 (se h) (se s)) (add64 (sf h) (sf s))
          (add64 (sg h) (sg s)) (add64 (sh h) (sh s)).

Fixpoint blocks (n : nat) (h : state) (data : list Z) : state :=
  match n with
  | O => h
  | S n' => blocks n' (compress h (firstn 128 data)) (skipn 128 data)
  end.

Definition output (s : state) : list Z :=
  be_bytes 8 (sa s) ++ be_bytes 8 (sb s) ++ be_bytes 8 (sc s) ++
  be_bytes 8 (sd s) ++ be_bytes 8 (se s) ++ be_bytes 8 (sf s) ++
  be_bytes 8 (sg s) ++ be_bytes 8 (sh s).

(** [hashlib.sha512(msg).digest()] *)
Definition sha512 (msg : list Z) : list Z :=
  let p := pad msg in
  output (blocks (List.length p / 128) H0 p).

Definition block_size : nat := 128.
Definition digest_size : nat := 64.

End SHA512.

Import Py.
(** ** HMAC, as the [hmac] module builds it from two hash objects

    A hash object is modelled by the octets fed to it so far: successive
    [update] calls amount to one call on the concatenation, and [digest()]
    hashes what has been fed. *)

Module Hmac.

(** The octets fed so far to the inner and to the outer SHA-512 object. *)
Record t := mk { inner : bytes; outer : bytes }.

(** [key.translate(trans_5C)], [key.translate(trans_36)] *)
Definition translate (x : Z) (key : bytes) : bytes := map (Z.lxor x) key.

(** [key.ljust(blocksize, b'\0')] *)
Definition ljust (n : nat) (key : bytes) : bytes :=
  key ++ repeat 0 (n - List.length key).

Definition update (h : t) (msg : bytes) : t :=
  {| inner := inner h ++ msg; outer := outer h |}.

(** [hmac.new(key, msg=msg, digestmod=hashlib.sha512)] *)
Definition new (key msg : bytes) : t :=
  let key :=
    if (SHA512.block_size <? List.length key)%nat
    then SHA512.sha512 key else key in
  let key := ljust SHA512.block_size key in
  update {| inner := translate 0x36 key; outer := translate 0x5C key |} msg.

Definition digest (h : t) : bytes :=
  SHA512.sha512 (outer h ++ SHA512.sha512 (inner h)).

Definition hexdigest (h : t) : pystr := hex (digest h).

End Hmac.

(** HMAC-SHA512 as RFC 2104 words it: [H((K0 xor opad) || H((K0 xor ipad) || text))],
    with [K0] the key hashed when longer than a block and then padded with
    zeros to a block. *)
Definition hmac_sha512 (key text : bytes) : bytes :=
  let k := if (128 <? List.length key)%nat then SHA512.sha512 key else key in
  let k0 := k ++ repeat 0 (128 - List.length k) in
  let ipad := map (fun b => Z.lxor b 0x36) k0 in
  let opad := map (fun b => Z.lxor b 0x5C) k0 in
  SHA512.sha512 (opad ++ SHA512.sha512 (ipad ++ text)).

(** ** Python objects *)

#[local] Set Warnings "-register-all".

Inductive value : Type :=
| VNone
| VBool (b : bool)
| VInt (n : Z)
| VStr (s : pystr)
| VList (l : list value)
| VDict (d : list (pystr * value)).

(** The items of a [dict], in insertion order. *)
Definition dict := list (pystr * value).

(** [a == b] on [str] objects *)
Fixpoint str_eqb (a b : pystr) : bool :=
  match a, b with
  | [], [] => true
  | x :: a', y :: b' => (x =? y) && str_eqb a' b'
  | _, _ => false
  end.

(** [d.get(k)] *)
Fixpoint dict_get (k : pystr) (d : dict) : option value :=
  match d with
  | [] => None
  | (k', v) :: d' => if str_eqb k k' then Some v else dict_get k d'
  end.

(** [d[k] = v]: an existing key keeps its place, a new one goes last. *)
Fixpoint dict_set (k : pystr) (v : value) (d : dict) : dict :=
  match d with
  | [] => [(k, v)]
  | (k', v') :: d' =>
      if str_eqb k k' then (k, v) :: d' else (k', v') :: dict_set k v d'
  end.

(** The truth value of an object, as [if data:] tests it. *)
Definition truthy (v : value) : bool :=
  match v with
  | VNone => false
  | VBool b => b
  | VInt n => negb (n =? 0)
  | VStr s => match s with [] => false | _ => true end
  | VList l => match l with [] => false | _ => true end
  | VDict d => match d with [] => false | _ => true end
  end.

(** ** [json.dumps] *)

Module Json.

(** Order of [str] objects: lexicographic on code points. *)
Fixpoint str_leb (a b : pystr) : bool :=
  match a, b with
  | [], _ => true
  | _ :: _, [] => false
  | x :: a', y :: b' =>
      if x <? y then true else if y <? x then false else str_leb a' b'
  end.

Section Sorting.
Context {B : Type}.

Fixpoint insert (x : pystr * B) (l : list (pystr * B)) : list (pystr * B) :=
  match l with
  | [] => [x]
  | y :: l' =>
      if str_leb (fst x) (fst y) then x :: y :: l' else y :: insert x l'
  end.

(** [sorted(dct.items())] of a dict, whose keys are distinct. *)
Fixpoint sorted (l : list (pystr * B)) : list (pystr * B) :=
  match l with
  | [] => []
  | x :: l' => insert x (sorted l')
  end.
End Sorting.

(** ['{0:04x}'.format(n)] for [n] below 0x10000 *)
Definition hex4 (n : Z) : pystr :=
  [hexdigit (Z.shiftr n 12 mod 16); hexdigit (Z.shiftr n 8 mod 16);
   hexdigit (Z.shiftr n 4 mod 16); hexdigit (n mod 16)].

(** The replacement of one character by [py_encode_basestring_ascii]:
    [ESCAPE_ASCII] matches a backslash, a double quote and everything
    outside [' '..'~']; [ESCAPE_DCT] names the short escapes. *)
Definition escape_char (c : Z) : pystr :=
  if c =? 92 then [92; 92]
  else if c =? 34 then [92; 34]
  else if (32 <=? c) && (c <=? 126) then [c]
  else if c =? 8 then [92; 98]
  else if c =? 12 then [92; 102]
  else if c =? 10 then [92; 110]
  else if c =? 13 then [92; 114]
  else if c =? 9 then [92; 116]
  else if c <? 0x10000 then [92; 117] ++ hex4 c
  else
    let n := c - 0x10000 in
    let s1 := Z.lor 0xd800 (Z.land (Z.shiftr n 10) 0x3ff) in
    let s2 := Z.lor 0xdc00 (Z.land n 0x3ff) in
    [92; 117] ++ hex4 s1 ++ [92; 117] ++ hex4 s2.

Definition encode_basestring_ascii (s : pystr) : pystr :=
  [34] ++ flat_map escape_char s ++ [34].

(** [int.__repr__], for integers of any size (CPython 3.11 and later
    refuse to write an integer of more than 4300 digits: see
    [renderable]). *)
Definition int_repr (n : Z) : pystr :=
  str (NilZero.string_of_int (Z.to_int n)).

(** Chunks joined by a separator. *)
Fixpoint join (sep : pystr) (chunks : list pystr) : pystr :=
  match chunks with
  | [] => []
  | [c] => c
  | c :: cs => c ++ sep ++ join sep cs
  end.

Section Encoder.
Variable sort_keys : bool.
Variable indent : option nat.
Variables item_separator key_separator : pystr.

(** ['\n' + _indent * _current_indent_level], empty without indentation *)
Definition newline_indent (level : nat) : pystr :=
  match indent with
  | Some n => 10 :: repeat 32 (n * level)
  | None => []
  end.

Definition items {B} (d : list (pystr * B)) : list (pystr * B) :=
  if sort_keys then sorted d else d.

Definition item_chunk (kv : pystr * pystr) : pystr :=
  encode_basestring_ascii (fst kv) ++ key_separator ++ snd kv.

(** A non-empty container: opening bracket, the chunks one per line (when
    indenting), closing bracket back at the enclosing level. *)
Definition container (opening closing : Z) (level : nat)
           (chunks : list pystr) : pystr :=
  [opening] ++ newline_indent (S level) ++
  join (item_separator ++ newline_indent (S level)) chunks ++
  newline_indent level ++ [closing].

(** [_iterencode], its chunks concatenated.  The values of a dict are
    encoded item by item and the encoded items then put in key order;
    [iterencode_dict] below shows this is the source's order of work,
    sorting first.  It gives the text [json.dumps] writes when it returns;
    the encoder of Python gives up past the recursion limit, which objects
    nested as [renderable] bounds them stay clear of. *)
Fixpoint iterencode (o : value) (level : nat) : pystr :=
  match o with
  | VNone => str "null"
  | VBool true => str "true"
  | VBool false => str "false"
  | VInt n => int_repr n
  | VStr s => encode_basestring_ascii s
  | VList [] => str "[]"
  | VList l =>
      container 91 93 level (map (fun v => iterencode v (S level)) l)
  | VDict [] => str "{}"
  | VDict d =>
      container 123 125 level
        (map item_chunk
             (items (map (fun kv => (fst kv, iterencode (snd kv) (S level))) d)))
  end.
End Encoder.

(** [json.dumps(o)] with the default arguments. *)
Definition dumps_default (o : value) : pystr :=
  iterencode false None (str ", ") (str ": ") o 0.

(** [json.dumps(o, sort_keys=True, indent=4, separators=(',', ': '))] *)
Definition dumps_canonical (o : value) : pystr :=
  iterencode true (Some 4%nat) (str ",") (str ": ") o 0.

End Json.

(** ** Effects: prompt, network, log, standard output, exceptions, exit *)

(** The exception classes the program can meet. *)
Inductive exn : Type :=
| KeyboardInterrupt
| EOFError
| UnicodeEncodeError
| KeyError (k : pystr)
| TypeError
| ConnectionError
| Timeout
| HTTPError
| RequestException
| JSONDecodeError.

(** The functions of [requests] that [getattr(requests, method)] selects. *)
Inductive verb : Type := get | options | head | post | put | patch | delete.

(** What [requests_method(url, headers=..., data=...)] is called with. *)
Record request := mkRequest
  { req_method : verb;
    req_url : pystr;
    req_headers : list (pystr * pystr);
    req_data : pystr }.

(** A [requests.Response]: its status and what [json()] gives, [None] when
    the body does not parse. *)
Record response := mkResponse
  { status_code : Z;
    json : option value }.

(** The outcome of a call to the service. *)
Inductive reply : Type :=
| Fails (e : exn)
| Responds (r : response).

(** What the operator does at the [getpass.getpass()] prompt. *)
Inductive keyboard : Type :=
| Typed (secret : pystr)
| Interrupted
| EndOfInput.

(** The arguments of a command, [vars(argument)] of the parser of [main]
    (its [func] entry, the command itself, is left out). *)
Record arguments := mkArguments
  { user : pystr;
    token : option pystr;
    verbose : Z;
    command : pystr;
    subcommand : pystr;
    name : pystr }.

(** An object handed to [print]. *)
Inductive printed : Type :=
| PArguments (a : arguments)
| PValue (v : value).

(** Observable events, in the order they happen. *)
Inductive event : Type :=
| EvGetpass
| EvRequest (r : request)
| EvCritical (msg : value)
| EvPrint (p : printed).

(** The surroundings of one run: the operator and the service. *)
Record world := mkWorld
  { tty : keyboard;
    server : request -> reply }.

Inductive result (A : Type) : Type :=
| Ret (a : A)
| Exit (status : Z)
| Raise (e : exn).
Arguments Ret {A} a.
Arguments Exit {A} status.
Arguments Raise {A} e.

(** A computation reads the world and yields a result and its events. *)
Definition M (A : Type) : Type := world -> result A * list event.

Definition ret {A} (a : A) : M A := fun _ => (Ret a, []).

Definition bind {A B} (m : M A) (f : A -> M B) : M B :=
  fun w =>
    match m w with
    | (Ret a, t) => let (r, t') := f a w in (r, t ++ t')
    | (Exit c, t) => (Exit c, t)
    | (Raise e, t) => (Raise e, t)
    end.

Notation "x <- m ;; k" := (bind m (fun x => k))
  (at level 61, m at next level, right associativity).
Notation "m ;;; k" := (bind m (fun _ => k))
  (at level 61, right associativity).

Definition raise {A} (e : exn) : M A := fun _ => (Raise e, []).

(** [sys.exit(status)]: [SystemExit] is caught by no handler of the program. *)
Definition sys_exit {A} (status : Z) : M A := fun _ => (Exit status, []).

Definition emit (ev : event) : M unit := fun _ => (Ret tt, [ev]).

(** The first [except] clause whose classes match the exception. *)
Fixpoint handler_for {A} (clauses : list ((exn -> bool) * M A)) (e : exn)
  : option (M A) :=
  match clauses with
  | [] => None
  | (catches, h) :: rest => if catches e then Some h else handler_for rest e
  end.

(** [try: m except <classes>: handler ...], one clause per pair. *)
Definition try_except {A} (m : M A) (clauses : list ((exn -> bool) * M A))
  : M A :=
  fun w =>
    match m w with
    | (Raise e, t) =>
        match handler_for clauses e with
        | Some h => let (r, t') := h w in (r, t ++ t')
        | None => (Raise e, t)
        end
    | other => other
    end.

(** The exit status of the process for a result at top level: an uncaught
    exception ends the interpreter with status 1. *)
Definition process_status {A} (r : result A) : Z :=
  match r with
  | Ret _ => 0
  | Exit status => status
  | Raise _ => 1
  end.

(** [getpass.getpass()] *)
Definition getpass : M pystr :=
  fun w =>
    match tty w with
    | Typed secret => (Ret secret, [EvGetpass])
    | Interrupted => (Raise KeyboardInterrupt, [EvGetpass])
    | EndOfInput => (Raise EOFError, [EvGetpass])
    end.

(** [bytes(s, 'utf8')] *)
Definition bytes_utf8 (s : pystr) : M bytes :=
  match utf8 s with
  | Some b => ret b
  | None => raise UnicodeEncodeError
  end.

(** [o[k]] for a [str] key: only a dict can be indexed by one. *)
Definition getitem (o : value) (k : pystr) : M value :=
  match o with
  | VDict d =>
      match dict_get k d with
      | Some v => ret v
      | None => raise (KeyError k)
      end
  | _ => raise TypeError
  end.

(** [logger.critical(msg)] *)
Definition critical (msg : value) : M unit := emit (EvCritical msg).

(** [print(o)] *)
Definition print (o : printed) : M unit := emit (EvPrint o).

(** [requests_method(url, headers=headers, data=data)] *)
Definition send (r : request) : M response :=
  fun w =>
    match server w r with
    | Fails e => (Raise e, [EvRequest r])
    | Responds resp => (Ret resp, [EvRequest r])
    end.

(** [req.json()] *)
Definition response_json (r : response) : M value :=
  match json r with
  | Some v => ret v
  | None => raise JSONDecodeError
  end.

(** ** The program *)

Definition version : pystr := str "1.7".
Definition USER_AGENT : pystr := str "blih-" ++ version.
Definition URL : pystr := str "https://blih.epitech.eu".

(** [sign_data(user, token, data=None)] *)
Definition sign_data (user : pystr) (token : option pystr) (data : value)
  : M dict :=
  token <- match token with
           | None =>
               try_except
                 (secret <- getpass ;;
                  b <- bytes_utf8 secret ;;
                  ret (hex (SHA512.sha512 b)))
                 [(fun e => match e with KeyboardInterrupt => true | _ => false end,
                   sys_exit 1)]
           | Some t => ret t
           end ;;
  key <- bytes_utf8 token ;;
  msg <- bytes_utf8 user ;;
  let signature := Hmac.new key msg in
  let signed_data : dict := [] in
  sd <- (if truthy data then
           let json_data := Json.dumps_canonical data in
           b <- bytes_utf8 json_data ;;
           ret (Hmac.update signature b, dict_set (str "data") data signed_data)
         else ret (signature, signed_data)) ;;
  let signature := fst sd in
  let signed_data := snd sd in
  let signed_data := dict_set (str "user") (VStr user) signed_data in
  let signed_data :=
    dict_set (str "signature") (VStr (Hmac.hexdigest signature)) signed_data in
  ret signed_data.

Definition headers : list (pystr * pystr) :=
  [(str "User-Agent", USER_AGENT); (str "Content-Type", str "application/json")].

(** [blih(method, resource, user, token, data)] *)
Definition blih (method : verb) (resource user : pystr)
           (token : option pystr) (data : value) : M value :=
  rd <- try_except
          (signed <- sign_data user token data ;;
           req <- send (mkRequest method (URL ++ resource) headers
                                  (Json.dumps_default (VDict signed))) ;;
           data <- response_json req ;;
           ret (req, data))
          [(fun e => match e with
                     | ConnectionError | Timeout => true
                     | _ => false
                     end,
            critical (VStr (str "Can't connect to " ++ URL)) ;;; sys_exit 1);
           (fun e => match e with HTTPError => true | _ => false end,
            critical (VStr (str "An HTTP Error occured")) ;;; sys_exit 1)] ;;
  let req := fst rd in
  let data := snd rd in
  if negb (status_code req =? 200) then
    try_except
      (e <- getitem data (str "error") ;; critical e)
      [(fun e => match e with KeyError _ => true | _ => false end,
        critical (VStr (str "Unknown error")))] ;;;
    sys_exit 1
  else ret data.

(** [repository_create(args)] *)
Definition repository_create (args : arguments) : M unit :=
  print (PArguments args) ;;;
  data <- blih post (str "/repositories") (user args) (token args)
               (VDict [(str "name", VStr (name args));
                       (str "type", VStr (str "git"))]) ;;
  message <- getitem data (str "message") ;;
  if truthy message then print (PValue message) else ret tt.

(** ** The other commands *)

(** [repository_delete(args)] *)
Definition repository_delete (args : arguments) : M unit :=
  data <- blih delete (str "/repository/" ++ name args) (user args) (token args)
               VNone ;;
  message <- getitem data (str "message") ;;
  if truthy message then print (PValue message) else ret tt.

(** The objects a [for] loop draws from [o]: the elements of a list, the
    keys of a dict, the characters of a str; nothing else iterates. *)
Definition iterate (o : value) : M (list value) :=
  match o with
  | VList l => ret l
  | VDict d => ret (map (fun kv => VStr (fst kv)) d)
  | VStr s => ret (map (fun c => VStr [c]) s)
  | _ => raise TypeError
  end.

(** [for x in xs: body(x)] *)
Fixpoint for_each {A} (xs : list A) (body : A -> M unit) : M unit :=
  match xs with
  | [] => ret tt
  | x :: xs' => body x ;;; for_each xs' body
  end.

(** [repository_list(args)] *)
Definition repository_list (args : arguments) : M unit :=
  data <- blih get (str "/repositories") (user args) (token args) VNone ;;
  repositories <- getitem data (str "repositories") ;;
  repos <- iterate repositories ;;
  for_each repos (fun repo => print (PValue repo)).

(** The arguments of [repository setacl]: the common ones and its two
    positional arguments. *)
Record setacl_arguments := mkSetaclArguments
  { setacl_args : arguments;
    user_acl : pystr;
    acl : pystr }.

(** [repository_setacl(args)] *)
Definition repository_setacl (args : setacl_arguments) : M unit :=
  data <- blih post
               ((str "/repository/" ++ name (setacl_args args)) ++ str "/acls")
               (user (setacl_args args)) (token (setacl_args args))
               (VDict [(str "user", VStr (user_acl args));
                       (str "acl", VStr (acl args))]) ;;
  message <- getitem data (str "message") ;;
  if truthy message then print (PValue message) else ret tt.

(** The arguments of [sshkey delete]. *)
Record sshkey_delete_arguments := mkSshkeyDeleteArguments
  { sshkey_delete_args : arguments;
    comment : pystr }.

(** [sshkey_delete(args)] *)
Definition sshkey_delete (args : sshkey_delete_arguments) : M unit :=
  data <- blih delete (str "/sshkey/" ++ comment args)
               (user (sshkey_delete_args args)) (token (sshkey_delete_args args))
               VNone ;;
  message <- getitem data (str "message") ;;
  if truthy message then print (PValue message) else ret tt.

(** The characters [urllib.parse.quote] never escapes: letters, digits and
    [_.-~]. *)
Definition always_safe (b : Z) : bool :=
  ((65 <=? b) && (b <=? 90)) || ((97 <=? b) && (b <=? 122)) ||
  ((48 <=? b) && (b <=? 57)) ||
  (b =? 95) || (b =? 46) || (b =? 45) || (b =? 126).

(** One uppercase hexadecimal digit, as a code point. *)
Definition hexdigit_upper (n : Z) : Z :=
  if n <? 10 then 48 + n else 55 + n.

(** One octet through the quoter, with [safe='/']: kept, or ['%{:02X}']. *)
Definition quote_byte (b : Z) : pystr :=
  if always_safe b || (b =? 47) then [b]
  else [37; hexdigit_upper (Z.shiftr b 4 mod 16); hexdigit_upper (b mod 16)].

(** [urllib.parse.quote(s)]: the UTF-8 octets of [s], each through the
    quoter. *)
Definition quote (s : pystr) : M pystr :=
  b <- bytes_utf8 s ;;
  ret (flat_map quote_byte b).

(** [s.lstrip('\n')] *)
Fixpoint lstrip_newlines (s : pystr) : pystr :=
  match s with
  | [] => []
  | c :: s' => if c =? 10 then lstrip_newlines s' else s
  end.

(** [s.strip('\n')] *)
Definition strip_newlines (s : pystr) : pystr :=
  rev (lstrip_newlines (rev (lstrip_newlines s))).

(** What [open(path, 'r')] followed by [read()] gives: the text of the
    file, or one of the two failures the program handles (other failures
    of the file system are not modelled). *)
Inductive opened : Type :=
| FileText (content : pystr)
| FilePermissionError
| FileNotFoundError.

(** The arguments of [sshkey upload]. *)
Record sshkey_upload_arguments := mkSshkeyUploadArguments
  { sshkey_upload_args : arguments;
    keyfile : pystr }.

(** [sshkey_upload(args)], in a file system [files]. *)
Definition sshkey_upload (files : pystr -> opened)
           (args : sshkey_upload_arguments) : M unit :=
  content <- match files (keyfile args) with
             | FileText content => ret content
             | FilePermissionError | FileNotFoundError =>
                 print (PValue (VStr (str "Can't open file : " ++ keyfile args))) ;;;
                 sys_exit 1
             end ;;
  key <- quote (strip_newlines content) ;;
  data <- blih post (str "/sshkeys")
               (user (sshkey_upload_args args)) (token (sshkey_upload_args args))
               (VDict [(str "sshkey", VStr key)]) ;;
  message <- getitem data (str "message") ;;
  if truthy message then print (PValue message) else ret tt.

(** The level [main] gives to [logging.basicConfig] for a count of [-v]
    flags: the count is capped at 4. *)
Definition logging_level (verbose : Z) : Z :=
  let verbose := if 5 <=? verbose then 4 else verbose in
  50 - verbose * 10.

(** The level of [logger.critical]. *)
Definition CRITICAL : Z := 50.

(** ** Notions the properties are stated with *)

(** Every dict inside the object has distinct keys, as every Python dict
    has. *)
Inductive well_formed : value -> Prop :=
| wf_none : well_formed VNone
| wf_bool b : well_formed (VBool b)
| wf_int n : well_formed (VInt n)
| wf_str s : well_formed (VStr s)
| wf_list l : Forall well_formed l -> well_formed (VList l)
| wf_dict d :
    NoDup (map fst d) ->
    Forall (fun kv => well_formed (snd kv)) d ->
    well_formed (VDict d).

(** Two objects that hold the same data: dicts are compared as mappings,
    whatever the order their items were inserted in, and so on inside. *)
Inductive same_object : value -> value -> Prop :=
| same_none : same_object VNone VNone
| same_bool b : same_object (VBool b) (VBool b)
| same_int n : same_object (VInt n) (VInt n)
| same_str s : same_object (VStr s) (VStr s)
| same_list l1 l2 :
    Forall2 same_object l1 l2 -> same_object (VList l1) (VList l2)
| same_dict d1 d d2 :
    Forall2 (fun a b => fst a = fst b /\ same_object (snd a) (snd b)) d1 d ->
    Permutation d d2 ->
    same_object (VDict d1) (VDict d2).

(** Items with the same key and related values. *)
Definition keyed {B C} (R : B -> C -> Prop) (a : pystr * B) (b : pystr * C)
  : Prop :=
  fst a = fst b /\ R (snd a) (snd b).

(** [d1 == d2] the way Python decides it for two dicts: as many items, and
    every key of [d1] is a key of [d2] with an equal value. *)
Definition same_lookups (d1 d2 : dict) : Prop :=
  List.length d1 = List.length d2 /\
  forall k v1, dict_get k d1 = Some v1 ->
               exists v2, dict_get k d2 = Some v2 /\ same_object v1 v2.

(** The keys of the items, in order. *)
Definition keys {B} (d : list (pystr * B)) : list pystr := map fst d.

(** Ascending key order of adjacent and distant items alike. *)
Definition ascending {B} (d : list (pystr * B)) : Prop :=
  StronglySorted (fun a b => Json.str_leb a b = true) (keys d).

(** An ASCII character. *)
Definition ascii_char (c : Z) : Prop := 0 <= c < 128.

(** The [signature] entry of an envelope. *)
Definition signature_of (envelope : dict) : option value :=
  dict_get (str "signature") envelope.

(** The number of prompts in a trace. *)
Definition prompts (t : list event) : nat :=
  List.length (filter (fun ev => match ev with EvGetpass => true | _ => false end) t).

(** The network calls of a trace. *)
Definition requests (t : list event) : list request :=
  flat_map (fun ev => match ev with EvRequest r => [r] | _ => [] end) t.

(** What a trace wrote to standard output. *)
Definition stdout (t : list event) : list printed :=
  flat_map (fun ev => match ev with EvPrint p => [p] | _ => [] end) t.

(** What a trace logged at level CRITICAL. *)
Definition criticals (t : list event) : list value :=
  flat_map (fun ev => match ev with EvCritical m => [m] | _ => [] end) t.

(** The canonical form of a payload as the signature takes it in:
    [bytes(json_data, 'utf8')], [None] if the encoding failed. *)
Definition canonical_bytes (payload : value) : option bytes :=
  utf8 (Json.dumps_canonical payload).

(** The request [blih] sends for a signed envelope. *)
Definition request_for (method : verb) (resource : pystr) (signed : dict)
  : request :=
  mkRequest method (URL ++ resource) headers (Json.dumps_default (VDict signed)).

(** The verdict of the dispatcher on the reply to its request, with the
    events that follow the request; [blih_after_signing] below proves that
    [blih] computes it. *)
Definition verdict (rep : reply) : result value * list event :=
  match rep with
  | Fails ConnectionError | Fails Timeout =>
      (Exit 1, [EvCritical (VStr (str "Can't connect to " ++ URL))])
  | Fails HTTPError =>
      (Exit 1, [EvCritical (VStr (str "An HTTP Error occured"))])
  | Fails e => (Raise e, [])
  | Responds r =>
      match json r with
      | None => (Raise JSONDecodeError, [])
      | Some body =>
          if status_code r =? 200 then (Ret body, [])
          else
            match body with
            | VDict d =>
                match dict_get (str "error") d with
                | Some msg => (Exit 1, [EvCritical msg])
                | None => (Exit 1, [EvCritical (VStr (str "Unknown error"))])
                end
            | _ => (Raise TypeError, [])
            end
      end
  end.

(** A service that gives the same reply to every request. *)
Definition service (rep : reply) : request -> reply := fun _ => rep.

(** A result that carries an envelope without a [data] entry. *)
Definition omits_payload (r : result dict) : Prop :=
  match r with
  | Ret envelope => dict_get (str "data") envelope = None
  | _ => True
  end.

(** A run without operator and without network. *)
Definition offline : world :=
  mkWorld EndOfInput (service (Fails ConnectionError)).

(** A run whose service answers every request with [rep] and whose
    operator does [k] at the prompt. *)
Definition answering (k : keyboard) (rep : reply) : world :=
  mkWorld k (service rep).

(** The envelope of identity [alice] signed with token [deadbeef], without
    payload. *)
Definition alice_envelope : dict :=
  [(str "user", VStr (str "alice"));
   (str "signature",
    VStr (hex (hmac_sha512 (str "deadbeef") (str "alice"))))].

(** The arguments of [blih -u alice -t deadbeef repository create myrepo]. *)
Definition alice_creates : arguments :=
  mkArguments (str "alice") (Some (str "deadbeef")) 0
              (str "repository") (str "create") (str "myrepo").

(** A surrogate code point, which UTF-8 does not encode. *)
Definition surrogate (c : Z) : Prop := 0xD800 <= c <= 0xDFFF.

(** A Unicode code point. *)
Definition code_point (c : Z) : Prop := 0 <= c < 0x110000.

(** An octet. *)
Definition octet (b : Z) : Prop := 0 <= b < 256.

(** What the commands do with the body [blih] returned: print its
    [message] entry when it is true, fail when there is none;
    [print_message_run] below proves it. *)
Definition message_verdict (data : value) : result unit * list event :=
  match data with
  | VDict d =>
      match dict_get (str "message") d with
      | Some message =>
          if truthy message then (Ret tt, [EvPrint (PValue message)])
          else (Ret tt, [])
      | None => (Raise (KeyError (str "message")), [])
      end
  | _ => (Raise TypeError, [])
  end.

(** The envelope of a request without payload. *)
Definition bare_envelope (user : pystr) (kb ub : bytes) : dict :=
  [(str "user", VStr user);
   (str "signature", VStr (hex (hmac_sha512 kb ub)))].

(** The envelope of a request with a payload that Python holds true. *)
Definition payload_envelope (user : pystr) (kb ub : bytes) (data : value)
  : dict :=
  [(str "data", data);
   (str "user", VStr user);
   (str "signature",
    VStr (hex (hmac_sha512 kb (ub ++ Json.dumps_canonical data))))].

(** The objects a [for] loop draws from an object, when it iterates. *)
Definition iteration (o : value) : option (list value) :=
  match o with
  | VList l => Some l
  | VDict d => Some (map (fun kv => VStr (fst kv)) d)
  | VStr s => Some (map (fun c => VStr [c]) s)
  | _ => None
  end.

(** What [repository_list] does with the body [blih] returned: print the
    objects its [repositories] entry iterates over, one by one;
    [print_repositories_run] below proves it. *)
Definition list_verdict (data : value) : result unit * list event :=
  match data with
  | VDict d =>
      match dict_get (str "repositories") d with
      | Some repositories =>
          match iteration repositories with
          | Some repos => (Ret tt, map (fun repo => EvPrint (PValue repo)) repos)
          | None => (Raise TypeError, [])
          end
      | None => (Raise (KeyError (str "repositories")), [])
      end
  | _ => (Raise TypeError, [])
  end.

(** A newline character. *)
Definition newline (c : Z) : Prop := c = 10.

(** A character left as it is by [urllib.parse.quote], a percent sign or an
    uppercase hexadecimal digit. *)
Definition url_safe (c : Z) : Prop :=
  always_safe c = true \/ c = 47 \/ c = 37.

(** A line break followed by four spaces for each level of nesting. *)
Definition indent_text (level : nat) : pystr := 10 :: repeat 32 (4 * level).

(** The entries of a container, each on a line of its own at the given
    level, a comma after every entry but the last. *)
Fixpoint lines (level : nat) (texts : list pystr) : pystr :=
  match texts with
  | [] => []
  | [t] => indent_text level ++ t
  | t :: ts => indent_text level ++ t ++ str "," ++ lines level ts
  end.

(** An entry of a mapping: the key as a JSON string, a colon, a space, the
    text of the value. *)
Definition entry_text (kv_text : (pystr * value) * pystr) : pystr :=
  Json.encode_basestring_ascii (fst (fst kv_text)) ++ str ": " ++ snd kv_text.

(** The canonical form as the specification words it, [canonical level o
    text]: keys in ascending order, nested values by the same rule one
    level deeper, fixed separators and an indentation of four spaces. *)
Inductive canonical : nat -> value -> pystr -> Prop :=
| canonical_none level : canonical level VNone (str "null")
| canonical_true level : canonical level (VBool true) (str "true")
| canonical_false level : canonical level (VBool false) (str "false")
| canonical_int level n : canonical level (VInt n) (Json.int_repr n)
| canonical_str level s :
    canonical level (VStr s) (Json.encode_basestring_ascii s)
| canonical_empty_list level : canonical level (VList []) (str "[]")
| canonical_list level l texts :
    l <> [] ->
    Forall2 (canonical (S level)) l texts ->
    canonical level (VList l)
      ([91] ++ lines (S level) texts ++ indent_text level ++ [93])
| canonical_empty_dict level : canonical level (VDict []) (str "{}")
| canonical_dict level d sorted_items texts :
    d <> [] ->
    Permutation sorted_items d ->
    ascending sorted_items ->
    Forall2 (fun kv text => canonical (S level) (snd kv) text)
            sorted_items texts ->
    canonical level (VDict d)
      ([123] ++ lines (S level) (map entry_text (combine sorted_items texts)) ++
       indent_text level ++ [125]).

(** [a == b] as Python decides it on these objects: a truth value equals
    the number 0 or 1 it stands for, lists are compared element by element,
    dicts entry by entry whatever their order. *)
Fixpoint py_eqb (a b : value) : bool :=
  match a, b with
  | VNone, VNone => true
  | VBool x, VBool y => Bool.eqb x y
  | VBool x, VInt n => (if x then 1 else 0) =? n
  | VInt n, VBool x => n =? (if x then 1 else 0)
  | VInt m, VInt n => m =? n
  | VStr s, VStr t => str_eqb s t
  | VList l, VList l' =>
      (fix go (l : list value) (l' : list value) : bool :=
         match l, l' with
         | [], [] => true
         | x :: l, y :: l' => py_eqb x y && go l l'
         | _, _ => false
         end) l l'
  | VDict d, VDict d' =>
      (List.length d =? List.length d')%nat &&
      (fix go (d : list (pystr * value)) : bool :=
         match d with
         | [] => true
         | kv :: d =>
             match dict_get (fst kv) d' with
             | Some v' => py_eqb (snd kv) v'
             | None => false
             end && go d
         end) d
  | _, _ => false
  end.

(** An object on which [json.dumps] returns under the default settings of
    CPython: nested at most [depth] deep and holding no integer of more
    than 4300 decimal digits (the encoder fails past the recursion limit
    and past the limit on the digits of an integer). *)
Fixpoint renderable_within (depth : nat) (o : value) : bool :=
  match depth with
  | O => false
  | S depth' =>
      match o with
      | VInt n => Z.abs n <? 10 ^ 4300
      | VList l => forallb (renderable_within depth') l
      | VDict d => forallb (fun kv => renderable_within depth' (snd kv)) d
      | _ => true
      end
  end.

(** A payload that [json.dumps] is sure to render: at most 16 levels. *)
Definition renderable (o : value) : Prop := renderable_within 16 o = true.

(** Induction on objects, with the hypothesis on every element of a list
    and every value of a dict. *)
Section ValueInduction.
Variable P : value -> Prop.
Hypothesis HNone : P VNone.
Hypothesis HBool : forall b, P (VBool b).
Hypothesis HInt : forall n, P (VInt n).
Hypothesis HStr : forall s, P (VStr s).
Hypothesis HList : forall l, Forall P l -> P (VList l).
Hypothesis HDict : forall d, Forall (fun kv => P (snd kv)) d -> P (VDict d).

Fixpoint value_ind' (v : value) : P v :=
  match v with
  | VNone => HNone
  | VBool b => HBool b
  | VInt n => HInt n
  | VStr s => HStr s
  | VList l =>
      HList l
        ((fix go (l : list value) : Forall P l :=
            match l with
            | [] => Forall_nil _
            | x :: l' => Forall_cons x (value_ind' x) (go l')
            end) l)
  | VDict d =>
      HDict d
        ((fix go (d : list (pystr * value))
            : Forall (fun kv => P (snd kv)) d :=
            match d with
            | [] => Forall_nil _
            | kv :: d' => Forall_cons kv (value_ind' (snd kv)) (go d')
            end) d)
  end.
End ValueInduction.

(** * Properties *)

(** ** The standard-library models reproduce known answers *)

Example sha512_abc :
  hex (SHA512.sha512 [97; 98; 99]) =
  str "ddaf35a193617abacc417349ae20413112e6fa4e89a97ea20a9eeee64b55d39a2192992a274fc1a836ba3c23a3feebbd454d4423643ce80e2a9ac94fa54ca49f".
Proof. vm_compute. reflexivity. Qed.

Example sha512_empty :
  hex (SHA512.sha512 []) =
  str "cf83e1357eefb8bdf1542850d66d8007d620e4050b5715dc83f4a921d36ce9ce47d0d13c5d85f2b0ff8318d2877eec2f63b931bd47417a81a538327af927da3e".
Proof. vm_compute. reflexivity. Qed.

Example hmac_alice :
  Hmac.hexdigest (Hmac.new (str "deadbeef") (str "alice")) =
  str "e4e149dad9e42151c9b1507afd84c0f488b2e2f0bf811fc341064c70a68b4de4cecf934b27e47de819d39fdf36926e97aaa9502c5bcdabfc115be92b14f52b71".
Proof. vm_compute. reflexivity. Qed.

(** RFC 4231, test case 6: a key longer than a block is hashed first. *)
Example hmac_long_key :
  Hmac.hexdigest
    (Hmac.new (repeat 0xaa 131)
              (str "Test Using Larger Than Block-Size Key - Hash Key First")) =
  str "80b24263c7c1a3ebb71493c1dd7be8b49b46d1f41b4aeec1121b013783f8f3526b56d037e05f2598bd0fd2215d6a1e5295e64f73f63f0aec8b915a985d786598".
Proof. vm_compute. reflexivity. Qed.

Example dumps_b1_a2 :
  Json.dumps_canonical (VDict [(str "b", VInt 1); (str "a", VInt 2)]) =
  str "{" ++ [10] ++ str "    " ++ [34] ++ str "a" ++ [34] ++ str ": 2," ++
  [10] ++ str "    " ++ [34] ++ str "b" ++ [34] ++ str ": 1" ++ [10] ++ str "}".
Proof. vm_compute. reflexivity. Qed.

(** ** Hexadecimal rendering and digest sizes *)

Lemma hexdigit_lower n : 0 <= n < 16 -> is_lower_hex (hexdigit n).
Proof.
  intros Hn. unfold is_lower_hex, hexdigit.
  destruct (n <? 10) eqn:E; [apply Z.ltb_lt in E | apply Z.ltb_ge in E]; lia.
Qed.

Lemma hex_lower b : Forall is_lower_hex (hex b).
Proof.
  induction b as [|x b IH]; simpl; [constructor|].
  apply Forall_cons; [|apply Forall_cons; [|exact IH]];
    apply hexdigit_lower; apply Z.mod_pos_bound; lia.
Qed.

Lemma hex_length b : List.length (hex b) = (2 * List.length b)%nat.
Proof. induction b as [|x b IH]; simpl; [reflexivity | lia]. Qed.

Lemma be_bytes_length n x : List.length (SHA512.be_bytes n x) = n.
Proof.
  revert x. induction n as [|n IH]; intros x; simpl; [reflexivity|].
  rewrite length_app, IH. simpl. lia.
Qed.

Lemma sha512_length msg : List.length (SHA512.sha512 msg) = SHA512.digest_size.
Proof.
  unfold SHA512.sha512, SHA512.output.
  repeat rewrite length_app. repeat rewrite be_bytes_length. reflexivity.
Qed.

(** ** The [hmac] object computes RFC 2104 *)

Lemma translate_xor x key :
  Hmac.translate x key = map (fun b => Z.lxor b x) key.
Proof. apply map_ext. intros b. apply Z.lxor_comm. Qed.

Lemma hmac_new_digest key msg :
  Hmac.digest (Hmac.new key msg) = hmac_sha512 key msg.
Proof.
  unfold Hmac.digest, Hmac.new, Hmac.update, hmac_sha512. simpl.
  rewrite !translate_xor. unfold Hmac.ljust, SHA512.block_size.
  destruct (128 <? List.length key)%nat; reflexivity.
Qed.

Lemma hmac_update_digest key msg more :
  Hmac.digest (Hmac.update (Hmac.new key msg) more) =
  hmac_sha512 key (msg ++ more).
Proof.
  rewrite <- hmac_new_digest.
  unfold Hmac.digest, Hmac.new, Hmac.update. simpl.
  now rewrite <- app_assoc.
Qed.

Lemma hmac_hexdigest_shape key text :
  Forall is_lower_hex (hex (hmac_sha512 key text)) /\
  List.length (hex (hmac_sha512 key text)) = 128%nat.
Proof.
  split; [apply hex_lower|].
  rewrite hex_length. unfold hmac_sha512. now rewrite sha512_length.
Qed.

(** ** Sorting the items of a dict *)

Lemma str_leb_refl a : Json.str_leb a a = true.
Proof.
  induction a as [|x a IH]; simpl; [reflexivity|].
  now rewrite Z.ltb_irrefl.
Qed.

Lemma str_leb_total a b : Json.str_leb a b = true \/ Json.str_leb b a = true.
Proof.
  revert b. induction a as [|x a IH]; intros [|y b]; simpl; auto.
  destruct (x <? y) eqn:E1; auto.
  destruct (y <? x) eqn:E2; auto.
Qed.

Lemma str_leb_antisym a b :
  Json.str_leb a b = true -> Json.str_leb b a = true -> a = b.
Proof.
  revert b. induction a as [|x a IH]; intros [|y b]; simpl; try easy.
  destruct (x <? y) eqn:E1; destruct (y <? x) eqn:E2;
    try apply Z.ltb_lt in E1; try apply Z.ltb_lt in E2;
    try apply Z.ltb_ge in E1; try apply Z.ltb_ge in E2;
    try lia; try discriminate.
  intros H1 H2. f_equal; [lia | auto].
Qed.

Lemma str_leb_trans a b c :
  Json.str_leb a b = true -> Json.str_leb b c = true -> Json.str_leb a c = true.
Proof.
  revert b c. induction a as [|x a IH]; intros [|y b] [|z c]; simpl; try easy.
  destruct (x <? y) eqn:E1; destruct (y <? x) eqn:E2;
  destruct (y <? z) eqn:E3; destruct (z <? y) eqn:E4;
  destruct (x <? z) eqn:E5; destruct (z <? x) eqn:E6;
    try apply Z.ltb_lt in E1; try apply Z.ltb_lt in E2;
    try apply Z.ltb_lt in E3; try apply Z.ltb_lt in E4;
    try apply Z.ltb_lt in E5; try apply Z.ltb_lt in E6;
    try apply Z.ltb_ge in E1; try apply Z.ltb_ge in E2;
    try apply Z.ltb_ge in E3; try apply Z.ltb_ge in E4;
    try apply Z.ltb_ge in E5; try apply Z.ltb_ge in E6;
    try lia; try easy.
  apply IH.
Qed.

Section SortingFacts.
Context {B : Type}.
Implicit Types (x y : pystr * B) (l : list (pystr * B)).

Lemma insert_perm x l : Permutation (Json.insert x l) (x :: l).
Proof.
  induction l as [|y l IH]; simpl; [apply Permutation_refl|].
  destruct (Json.str_leb (fst x) (fst y)); [apply Permutation_refl|].
  rewrite IH. apply perm_swap.
Qed.

Lemma sorted_perm l : Permutation (Json.sorted l) l.
Proof.
  induction l as [|x l IH]; simpl; [apply perm_nil|].
  rewrite insert_perm. now apply perm_skip.
Qed.

Lemma insert_ascending x l :
  ascending l -> ascending (Json.insert x l).
Proof.
  unfold ascending, keys.
  induction l as [|y l IH]; simpl; intros Hs.
  - repeat constructor.
  - destruct (Json.str_leb (fst x) (fst y)) eqn:E; simpl.
    + constructor; [exact Hs|].
      apply StronglySorted_inv in Hs. destruct Hs as [_ Hy].
      constructor; [exact E|].
      eapply Forall_impl; [|exact Hy].
      intros k Hk. eapply str_leb_trans; eassumption.
    + apply StronglySorted_inv in Hs. destruct Hs as [Hl Hy].
      constructor; [now apply IH|].
      assert (Hperm : Permutation (map fst (Json.insert x l)) (fst x :: map fst l)).
      { change (fst x :: map fst l) with (map fst (x :: l)).
        apply Permutation_map, insert_perm. }
      eapply Permutation_Forall; [apply Permutation_sym, Hperm|].
      constructor; [|exact Hy].
      destruct (str_leb_total (fst x) (fst y)) as [H|H]; [congruence | exact H].
Qed.

Lemma sorted_ascending l : ascending (Json.sorted l).
Proof.
  induction l as [|x l IH]; simpl; [constructor|].
  now apply insert_ascending.
Qed.

Lemma insert_insert x y l :
  fst x <> fst y ->
  Json.insert x (Json.insert y l) = Json.insert y (Json.insert x l).
Proof.
  intros Hne. induction l as [|z l IH]; simpl.
  - destruct (Json.str_leb (fst x) (fst y)) eqn:Exy;
    destruct (Json.str_leb (fst y) (fst x)) eqn:Eyx; try reflexivity.
    + exfalso. apply Hne. now apply str_leb_antisym.
    + destruct (str_leb_total (fst x) (fst y)); congruence.
  - destruct (Json.str_leb (fst y) (fst z)) eqn:Eyz;
    destruct (Json.str_leb (fst x) (fst z)) eqn:Exz; simpl;
      rewrite ?Eyz, ?Exz.
    + destruct (Json.str_leb (fst x) (fst y)) eqn:Exy;
      destruct (Json.str_leb (fst y) (fst x)) eqn:Eyx;
        rewrite ?Eyz, ?Exz; try reflexivity.
      * exfalso. apply Hne. now apply str_leb_antisym.
      * destruct (str_leb_total (fst x) (fst y)); congruence.
    + destruct (Json.str_leb (fst x) (fst y)) eqn:Exy.
      * rewrite (str_leb_trans _ _ _ Exy Eyz) in Exz. discriminate.
      * simpl; rewrite ?Exz; reflexivity.
    + destruct (Json.str_leb (fst y) (fst x)) eqn:Eyx.
      * rewrite (str_leb_trans _ _ _ Eyx Exz) in Eyz. discriminate.
      * simpl; rewrite ?Eyz; reflexivity.
    + now rewrite IH.
Qed.

(** The sorted items depend on the mapping only, not on insertion order. *)
Lemma sorted_permutation l1 l2 :
  Permutation l1 l2 -> NoDup (keys l1) -> Json.sorted l1 = Json.sorted l2.
Proof.
  unfold keys. induction 1 as [|x l l' Hp IH|x y l|l l' l'' Hp1 IH1 Hp2 IH2];
    simpl; intros Hnd.
  - reflexivity.
  - inversion Hnd; subst. now rewrite IH.
  - apply insert_insert. inversion Hnd as [|? ? Hin _]; subst.
    intros Heq. apply Hin. simpl. now left.
  - rewrite IH1 by assumption. apply IH2.
    eapply Permutation_NoDup; [|exact Hnd]. now apply Permutation_map.
Qed.
End SortingFacts.

(** Sorting looks at keys only: it commutes with a change of the values. *)
Lemma insert_map {B C} (f : B -> C) (x : pystr * B) l :
  Json.insert (fst x, f (snd x)) (map (fun kv => (fst kv, f (snd kv))) l) =
  map (fun kv => (fst kv, f (snd kv))) (Json.insert x l).
Proof.
  induction l as [|y l IH]; simpl; [reflexivity|].
  destruct (Json.str_leb (fst x) (fst y)); simpl; [reflexivity|].
  now rewrite IH.
Qed.

Lemma sorted_map {B C} (f : B -> C) (l : list (pystr * B)) :
  Json.sorted (map (fun kv => (fst kv, f (snd kv))) l) =
  map (fun kv => (fst kv, f (snd kv))) (Json.sorted l).
Proof.
  induction l as [|x l IH]; simpl; [reflexivity|].
  rewrite IH. apply insert_map.
Qed.

(** Items related key by key stay related, in step, through the sort. *)
Section SortingRelated.
Context {B C : Type} (R : B -> C -> Prop).
Local Abbreviation keyed := (keyed R).

Lemma insert_keyed x y l1 l2 :
  keyed x y -> Forall2 keyed l1 l2 ->
  Forall2 keyed (Json.insert x l1) (Json.insert y l2).
Proof.
  intros Hxy. induction 1 as [|a b l1 l2 Hab Hl IH]; simpl.
  - constructor; [exact Hxy | constructor].
  - destruct Hxy as [Hk Hv]. destruct Hab as [Hk' Hv'].
    rewrite <- Hk, <- Hk'.
    destruct (Json.str_leb (fst x) (fst a)).
    + constructor; [split; assumption|].
      constructor; [split; assumption | exact Hl].
    + constructor; [split; assumption | exact IH].
Qed.

Lemma sorted_keyed l1 l2 :
  Forall2 keyed l1 l2 -> Forall2 keyed (Json.sorted l1) (Json.sorted l2).
Proof.
  induction 1 as [|a b l1 l2 Hab Hl IH]; simpl; [constructor|].
  now apply insert_keyed.
Qed.
End SortingRelated.

(** ** The encoder *)

Section EncoderFacts.
Variable sort_keys : bool.
Variable indent : option nat.
Variables item_separator key_separator : pystr.

Local Abbreviation encode :=
  (Json.iterencode sort_keys indent item_separator key_separator).

(** The dict case as the source performs it: take the items, sorted when
    [sort_keys] is set, then encode key, separator and value of each. *)
Lemma iterencode_dict d level :
  d <> [] ->
  encode (VDict d) level =
  Json.container indent item_separator 123 125 level
    (map (fun kv => Json.encode_basestring_ascii (fst kv) ++ key_separator ++
                    encode (snd kv) (S level))
         (Json.items sort_keys d)).
Proof.
  intros Hd. destruct d as [|kv d]; [congruence|].
  cbn [Json.iterencode]. f_equal.
  unfold Json.items. destruct sort_keys.
  - rewrite (sorted_map (fun v => Json.iterencode true indent item_separator
                                    key_separator v (S level)) (kv :: d)).
    rewrite map_map. reflexivity.
  - rewrite map_map. reflexivity.
Qed.

Lemma iterencode_list l level :
  l <> [] ->
  encode (VList l) level =
  Json.container indent item_separator 91 93 level
    (map (fun v => encode v (S level)) l).
Proof. intros Hl. destruct l; [congruence | reflexivity]. Qed.
End EncoderFacts.

(** ** The encoder writes ASCII only, which UTF-8 leaves as it is *)

Lemma utf8_ascii s : Forall ascii_char s -> utf8 s = Some s.
Proof.
  induction 1 as [|c s Hc Hs IH]; simpl; [reflexivity|].
  rewrite IH. unfold utf8_char.
  destruct (c <? 128) eqn:E; [reflexivity|].
  apply Z.ltb_ge in E. unfold ascii_char in Hc. lia.
Qed.

Lemma hexdigit_ascii n : ascii_char (hexdigit (n mod 16)).
Proof.
  destruct (hexdigit_lower (n mod 16)) as [H|H];
    [apply Z.mod_pos_bound; lia | |]; unfold ascii_char; lia.
Qed.

Lemma hex_ascii b : Forall ascii_char (hex b).
Proof.
  eapply Forall_impl; [|apply hex_lower].
  intros c [H|H]; unfold ascii_char; lia.
Qed.

Lemma hex4_ascii n : Forall ascii_char (Json.hex4 n).
Proof. unfold Json.hex4. repeat apply Forall_cons; try apply hexdigit_ascii. constructor. Qed.

Lemma escape_char_ascii c : Forall ascii_char (Json.escape_char c).
Proof.
  unfold Json.escape_char.
  repeat match goal with
         | |- context [if ?b then _ else _] => destruct b eqn:?
         end;
    repeat (apply Forall_app; split); try apply hex4_ascii;
    repeat apply Forall_cons; try apply Forall_nil; unfold ascii_char; try lia.
Qed.

Lemma encode_basestring_ascii_ascii s :
  Forall ascii_char (Json.encode_basestring_ascii s).
Proof.
  unfold Json.encode_basestring_ascii.
  apply Forall_app. split; [repeat constructor; unfold ascii_char; lia|].
  apply Forall_app. split; [|repeat constructor; unfold ascii_char; lia].
  induction s as [|c s IH]; simpl; [constructor|].
  apply Forall_app. split; [apply escape_char_ascii | exact IH].
Qed.

Lemma uint_ascii d : Forall ascii_char (str (NilEmpty.string_of_uint d)).
Proof.
  induction d; simpl; try apply Forall_nil;
    (apply Forall_cons; [unfold ascii_char; simpl; lia | assumption]).
Qed.

Lemma int_repr_ascii n : Forall ascii_char (Json.int_repr n).
Proof.
  unfold Json.int_repr, NilZero.string_of_int, NilZero.string_of_uint.
  destruct (Z.to_int n) as [d|d].
  - destruct d; try apply uint_ascii.
    repeat constructor; unfold ascii_char; simpl; lia.
  - change (Forall ascii_char (45 :: str match d with
                                         | Decimal.Nil => "0"
                                         | _ => NilEmpty.string_of_uint d
                                         end)).
    apply Forall_cons; [unfold ascii_char; lia|].
    destruct d; try apply uint_ascii.
    repeat constructor; unfold ascii_char; simpl; lia.
Qed.

Lemma join_ascii sep chunks :
  Forall ascii_char sep -> Forall (Forall ascii_char) chunks ->
  Forall ascii_char (Json.join sep chunks).
Proof.
  intros Hsep. induction 1 as [|c cs Hc Hcs IH]; simpl; [constructor|].
  destruct cs as [|c' cs]; [exact Hc|].
  apply Forall_app. split; [exact Hc|].
  apply Forall_app. split; [exact Hsep | exact IH].
Qed.

Lemma newline_indent_ascii indent level :
  Forall ascii_char (Json.newline_indent indent level).
Proof.
  unfold Json.newline_indent. destruct indent as [n|]; [|constructor].
  apply Forall_cons; [unfold ascii_char; lia|].
  apply Forall_forall. intros c Hc. apply repeat_spec in Hc. subst.
  unfold ascii_char. lia.
Qed.

Lemma container_ascii indent sep opening closing level chunks :
  ascii_char opening -> ascii_char closing ->
  Forall ascii_char sep -> Forall (Forall ascii_char) chunks ->
  Forall ascii_char (Json.container indent sep opening closing level chunks).
Proof.
  intros Ho Hc Hsep Hchunks. unfold Json.container.
  apply Forall_app. split; [apply Forall_cons; [exact Ho | apply Forall_nil]|].
  apply Forall_app. split; [apply newline_indent_ascii|].
  apply Forall_app. split.
  - apply join_ascii; [|exact Hchunks].
    apply Forall_app. split; [exact Hsep | apply newline_indent_ascii].
  - apply Forall_app. split; [apply newline_indent_ascii|].
    apply Forall_cons; [exact Hc | apply Forall_nil].
Qed.

Lemma iterencode_ascii sort_keys indent item_separator key_separator :
  Forall ascii_char item_separator -> Forall ascii_char key_separator ->
  forall o level,
    Forall ascii_char
      (Json.iterencode sort_keys indent item_separator key_separator o level).
Proof.
  intros Hi Hk o.
  induction o as [|b|n|s|l IH|d IH] using value_ind'; intros level.
  - repeat constructor; unfold ascii_char; simpl; lia.
  - destruct b; repeat constructor; unfold ascii_char; simpl; lia.
  - apply int_repr_ascii.
  - apply encode_basestring_ascii_ascii.
  - destruct l as [|v l]; [repeat constructor; unfold ascii_char; simpl; lia|].
    rewrite iterencode_list by discriminate.
    apply container_ascii; try (unfold ascii_char; lia); try exact Hi.
    apply Forall_map. eapply Forall_impl; [|exact IH].
    intros v' Hv'. apply Hv'.
  - destruct d as [|kv d]; [repeat constructor; unfold ascii_char; simpl; lia|].
    rewrite iterencode_dict by discriminate.
    apply container_ascii; try (unfold ascii_char; lia); try exact Hi.
    apply Forall_map.
    assert (Hitems : Forall (fun kv => forall level,
                Forall ascii_char
                  (Json.iterencode sort_keys indent item_separator
                     key_separator (snd kv) level))
              (Json.items sort_keys (kv :: d))).
    { unfold Json.items. destruct sort_keys; [|exact IH].
      eapply Permutation_Forall; [apply Permutation_sym, sorted_perm | exact IH]. }
    eapply Forall_impl; [|exact Hitems].
    intros kv' Hkv'. apply Forall_app. split; [apply encode_basestring_ascii_ascii|].
    apply Forall_app. split; [exact Hk | apply Hkv'].
Qed.

Lemma dumps_canonical_ascii o : Forall ascii_char (Json.dumps_canonical o).
Proof.
  apply iterencode_ascii; repeat constructor; unfold ascii_char; simpl; lia.
Qed.

(** [bytes(json_data, 'utf8')] never fails and changes nothing. *)
Lemma dumps_canonical_utf8 o :
  utf8 (Json.dumps_canonical o) = Some (Json.dumps_canonical o).
Proof. apply utf8_ascii, dumps_canonical_ascii. Qed.

(** ** Canonical form: equal mappings, equal bytes *)

Lemma Forall2_In_impl {A B} (R R' : A -> B -> Prop) l1 l2 :
  Forall2 R l1 l2 ->
  (forall a b, In a l1 -> In b l2 -> R a b -> R' a b) ->
  Forall2 R' l1 l2.
Proof.
  induction 1 as [|a b l1 l2 Hab Hl IH]; intros Himp; constructor.
  - apply Himp; simpl; auto.
  - apply IH. intros a' b' Ha Hb. apply Himp; simpl; auto.
Qed.

Lemma Forall2_map_eq {A B C} (R : A -> B -> Prop) (f : A -> C) (g : B -> C) l1 l2 :
  Forall2 R l1 l2 -> (forall a b, R a b -> f a = g b) -> map f l1 = map g l2.
Proof.
  induction 1 as [|a b l1 l2 Hab Hl IH]; intros Hfg; simpl; [reflexivity|].
  f_equal; auto.
Qed.

Lemma iterencode_same_object indent item_separator key_separator o1 :
  forall o2 level,
    same_object o1 o2 -> well_formed o2 ->
    Json.iterencode true indent item_separator key_separator o1 level =
    Json.iterencode true indent item_separator key_separator o2 level.
Proof.
  induction o1 as [|b|n|s|l1 IH|d1 IH] using value_ind';
    intros o2 level Hs Hw; inversion Hs; subst; try reflexivity.
  - (* lists, element by element *)
    match goal with H : Forall2 same_object l1 ?l |- _ => rename l into l2, H into HF end.
    inversion Hw as [| | | |? Hwl|]; subst.
    destruct HF as [|a b l1 l2 Hab HF]; [reflexivity|].
    rewrite !iterencode_list by discriminate. f_equal.
    apply Forall2_map_eq with
      (R := fun v1 v2 => forall lv,
              Json.iterencode true indent item_separator key_separator v1 lv =
              Json.iterencode true indent item_separator key_separator v2 lv).
    + eapply Forall2_In_impl; [exact (Forall2_cons _ _ Hab HF)|].
      intros x y Hx Hy Hxy lv.
      rewrite Forall_forall in IH, Hwl. apply (IH x Hx); [exact Hxy | apply (Hwl y Hy)].
    + intros x y Hxy. apply Hxy.
  - (* dicts: the items in key order, then value by value *)
    match goal with H : Permutation ?l ?l' |- _ => rename l into d, l' into d2, H into HP end.
    match goal with H : Forall2 _ d1 d |- _ => rename H into HF end.
    inversion Hw as [| | | | |? Hnd Hwd]; subst.
    assert (Hwd' : Forall (fun kv => well_formed (snd kv)) d).
    { eapply Permutation_Forall; [apply Permutation_sym, HP | exact Hwd]. }
    assert (Hnd' : NoDup (keys d)).
    { eapply Permutation_NoDup; [apply Permutation_map, Permutation_sym, HP | exact Hnd]. }
    destruct HF as [|a b d1 d Hab HF].
    { apply Permutation_nil in HP. subst. reflexivity. }
    destruct d2 as [|c d2]; [apply Permutation_sym, Permutation_nil in HP; discriminate|].
    rewrite !iterencode_dict by discriminate. f_equal.
    unfold Json.items.
    rewrite <- (sorted_permutation _ _ HP Hnd').
    apply Forall2_map_eq with
      (R := keyed (fun v1 v2 => forall lv,
                     Json.iterencode true indent item_separator key_separator v1 lv =
                     Json.iterencode true indent item_separator key_separator v2 lv)).
    + apply sorted_keyed.
      eapply Forall2_In_impl; [exact (Forall2_cons _ _ Hab HF)|].
      intros x y Hx Hy [Hk Hv]. split; [exact Hk|]. intros lv.
      rewrite Forall_forall in IH, Hwd'.
      apply (IH x Hx); [exact Hv | apply (Hwd' y Hy)].
    + intros x y [Hk Hv]. now rewrite Hk, Hv.
Qed.

(** Equality of dicts as Python decides it is an instance of
    [same_object]. *)

Lemma str_eqb_eq a b : str_eqb a b = true <-> a = b.
Proof.
  revert b. induction a as [|x a IH]; intros [|y b]; simpl; try easy.
  rewrite andb_true_iff, Z.eqb_eq, IH. split.
  - now intros [-> ->].
  - intros H. now inversion H.
Qed.

Lemma str_eqb_refl a : str_eqb a a = true.
Proof. now apply str_eqb_eq. Qed.

Lemma str_eqb_neq a b : a <> b -> str_eqb a b = false.
Proof.
  intros Hne. destruct (str_eqb a b) eqn:E; [|reflexivity].
  apply str_eqb_eq in E. contradiction.
Qed.

Lemma dict_get_In k d v : dict_get k d = Some v -> In k (keys d).
Proof.
  induction d as [|[k' v'] d IH]; simpl; [discriminate|].
  destruct (str_eqb k k') eqn:E.
  - apply str_eqb_eq in E. now left.
  - intros H. right. now apply IH.
Qed.

Lemma dict_get_split k d v :
  dict_get k d = Some v ->
  exists l1 l2, d = l1 ++ (k, v) :: l2 /\ ~ In k (keys l1).
Proof.
  induction d as [|[k' v'] d IH]; simpl; [discriminate|].
  destruct (str_eqb k k') eqn:E.
  - apply str_eqb_eq in E. subst k'. intros [= ->].
    exists [], d. split; [reflexivity | intros []].
  - intros H. destruct (IH H) as (l1 & l2 & -> & Hn).
    exists ((k', v') :: l1), l2. split; [reflexivity|].
    simpl. intros [->|Hin]; [|now apply Hn].
    now rewrite str_eqb_refl in E.
Qed.

Lemma dict_get_remove k' k v l1 l2 :
  k' <> k ->
  dict_get k' (l1 ++ (k, v) :: l2) = dict_get k' (l1 ++ l2).
Proof.
  intros Hne. induction l1 as [|[k1 v1] l1 IH]; simpl.
  - now rewrite (str_eqb_neq _ _ Hne).
  - now rewrite IH.
Qed.

Lemma same_object_of_lookups d1 :
  forall d2,
    NoDup (keys d1) -> NoDup (keys d2) -> same_lookups d1 d2 ->
    same_object (VDict d1) (VDict d2).
Proof.
  induction d1 as [|[k v1] d1 IH]; intros d2 Hn1 Hn2 [Hlen Hget].
  - destruct d2; [|discriminate]. apply same_dict with (d := []); constructor.
  - destruct (Hget k v1) as (v2 & Hk & Hv); [simpl; now rewrite str_eqb_refl|].
    destruct (dict_get_split _ _ _ Hk) as (l1 & l2 & -> & Hl1).
    inversion Hn1 as [|? ? Hk1 Hn1']; subst.
    assert (Hn2' : NoDup (keys (l1 ++ l2))).
    { unfold keys in *. rewrite map_app in *. simpl in Hn2.
      now apply NoDup_remove_1 in Hn2. }
    assert (Hs : same_object (VDict d1) (VDict (l1 ++ l2))).
    { apply IH; try assumption. split.
      - rewrite length_app in *. simpl in Hlen. lia.
      - intros k' v Hk'.
        assert (Hne : k' <> k).
        { intros ->. apply Hk1. eapply dict_get_In. exact Hk'. }
        destruct (Hget k' v) as (v' & Hv' & Hs).
        + simpl. now rewrite (str_eqb_neq _ _ Hne).
        + exists v'. split; [|exact Hs].
          now rewrite <- (dict_get_remove k' k v2 l1 l2 Hne). }
    inversion Hs as [| | | | |? d ? HF HP]; subst.
    apply same_dict with (d := (k, v2) :: d).
    + constructor; [split; [reflexivity | exact Hv] | exact HF].
    + now apply Permutation_cons_app.
Qed.

(** Two dicts that Python finds equal have the same canonical form. *)
Lemma dumps_canonical_of_equal_dicts d1 d2 :
  NoDup (keys d1) -> well_formed (VDict d2) -> same_lookups d1 d2 ->
  Json.dumps_canonical (VDict d1) = Json.dumps_canonical (VDict d2).
Proof.
  intros Hn1 Hw Hl. apply iterencode_same_object; [|exact Hw].
  apply same_object_of_lookups; try assumption.
  now inversion Hw.
Qed.

(** The encoder meets the canonical form of the specification. *)

Lemma join_lines level texts :
  texts <> [] ->
  Json.newline_indent (Some 4%nat) level ++
  Json.join (str "," ++ Json.newline_indent (Some 4%nat) level) texts =
  lines level texts.
Proof.
  induction texts as [|t ts IH]; [congruence|]. intros _.
  destruct ts as [|t' ts]; [reflexivity|].
  change (lines level (t :: t' :: ts))
    with (indent_text level ++ t ++ str "," ++ lines level (t' :: ts)).
  change (Json.join (str "," ++ Json.newline_indent (Some 4%nat) level)
            (t :: t' :: ts))
    with (t ++ (str "," ++ Json.newline_indent (Some 4%nat) level) ++
          Json.join (str "," ++ Json.newline_indent (Some 4%nat) level) (t' :: ts)).
  rewrite <- IH by discriminate.
  change (Json.newline_indent (Some 4%nat) level) with (indent_text level).
  rewrite <- !app_assoc. reflexivity.
Qed.

Lemma container_lines opening closing level texts :
  texts <> [] ->
  Json.container (Some 4%nat) (str ",") opening closing level texts =
  [opening] ++ lines (S level) texts ++ indent_text level ++ [closing].
Proof.
  intros Ht. unfold Json.container.
  rewrite <- (join_lines (S level) texts Ht). rewrite <- !app_assoc. reflexivity.
Qed.

Lemma map_entry_text (f : value -> pystr) items :
  map entry_text (combine items (map (fun kv => f (snd kv)) items)) =
  map (fun kv => Json.encode_basestring_ascii (fst kv) ++ str ": " ++ f (snd kv))
      items.
Proof.
  induction items as [|kv items IH]; [reflexivity|].
  cbn [map combine]. now rewrite IH.
Qed.

Lemma Forall2_map_right {A B} (R : A -> B -> Prop) (f : A -> B) l :
  (forall x, In x l -> R x (f x)) -> Forall2 R l (map f l).
Proof.
  induction l as [|x l IH]; intros H; simpl; constructor.
  - apply H. now left.
  - apply IH. intros y Hy. apply H. now right.
Qed.

Lemma iterencode_canonical o :
  well_formed o ->
  forall level,
    canonical level o
      (Json.iterencode true (Some 4%nat) (str ",") (str ": ") o level).
Proof.
  induction o as [|b|n|s|l IH|d IH] using value_ind'; intros Hw level.
  - constructor.
  - destruct b; constructor.
  - constructor.
  - constructor.
  - destruct l as [|v l]; [constructor|].
    rewrite iterencode_list by discriminate.
    rewrite container_lines by discriminate.
    apply canonical_list; [discriminate|].
    inversion Hw as [| | | |? Hwl|]; subst.
    rewrite Forall_forall in IH, Hwl.
    apply Forall2_map_right. intros x Hx. apply IH; auto.
  - destruct d as [|kv d]; [constructor|].
    rewrite iterencode_dict by discriminate.
    inversion Hw as [| | | | |? Hnd Hwd]; subst.
    assert (Hne : Json.items true (kv :: d) <> []).
    { intros He. pose proof (sorted_perm (kv :: d)) as Hp.
      unfold Json.items in He. rewrite He in Hp.
      apply Permutation_nil in Hp. discriminate. }
    rewrite container_lines
      by (destruct (Json.items true (kv :: d)); [congruence | discriminate]).
    rewrite <- (map_entry_text
                  (fun v => Json.iterencode true (Some 4%nat) (str ",") (str ": ")
                              v (S level))).
    apply canonical_dict; [discriminate | apply sorted_perm | apply sorted_ascending |].
    apply (Forall2_map_right
             (fun kv text => canonical (S level) (snd kv) text)
             (fun kv => Json.iterencode true (Some 4%nat) (str ",") (str ": ")
                          (snd kv) (S level))).
    intros x Hx.
    assert (Hin : In x (kv :: d))
      by (eapply Permutation_in; [apply sorted_perm | exact Hx]).
    rewrite Forall_forall in IH, Hwd. apply IH; auto.
Qed.

(** The canonical form of the specification determines the text. *)

Lemma sorted_of_ascending {B} (l : list (pystr * B)) :
  ascending l -> Json.sorted l = l.
Proof.
  unfold ascending, keys. induction l as [|x l IH]; [reflexivity|].
  cbn [map]. intros Hs. apply StronglySorted_inv in Hs. destruct Hs as [Hl Hx].
  cbn [Json.sorted]. rewrite IH by exact Hl.
  destruct l as [|y l]; [reflexivity|].
  cbn [Json.insert]. cbn [map] in Hx.
  apply Forall_inv in Hx. now rewrite Hx.
Qed.

Lemma ascending_permutation_unique {B} (d l1 l2 : list (pystr * B)) :
  NoDup (keys d) ->
  Permutation l1 d -> ascending l1 ->
  Permutation l2 d -> ascending l2 ->
  l1 = l2.
Proof.
  intros Hnd Hp1 Ha1 Hp2 Ha2.
  rewrite <- (sorted_of_ascending l1 Ha1), <- (sorted_of_ascending l2 Ha2).
  apply sorted_permutation.
  - eapply Permutation_trans; [exact Hp1 | apply Permutation_sym, Hp2].
  - eapply Permutation_NoDup; [|exact Hnd].
    apply Permutation_map, Permutation_sym, Hp1.
Qed.

Lemma Forall2_unique {A B} (R : A -> B -> Prop) l :
  (forall x, In x l -> forall b1 b2, R x b1 -> R x b2 -> b1 = b2) ->
  forall l1 l2, Forall2 R l l1 -> Forall2 R l l2 -> l1 = l2.
Proof.
  induction l as [|x l IH]; intros Hu l1 l2 H1 H2.
  - inversion H1; inversion H2; subst; reflexivity.
  - inversion H1 as [|? b1 ? l1' Hb1 Hl1]; subst.
    inversion H2 as [|? b2 ? l2' Hb2 Hl2]; subst.
    f_equal.
    + eapply Hu; [now left | exact Hb1 | exact Hb2].
    + apply IH; try assumption. intros z Hz. apply Hu. now right.
Qed.

Lemma canonical_unique o :
  well_formed o ->
  forall level t1 t2, canonical level o t1 -> canonical level o t2 -> t1 = t2.
Proof.
  induction o as [|b|n|s|l IH|d IH] using value_ind';
    intros Hw level t1 t2 H1 H2.
  - inversion H1; inversion H2; subst; reflexivity.
  - inversion H1; inversion H2; subst; try reflexivity; congruence.
  - inversion H1; inversion H2; subst; reflexivity.
  - inversion H1; inversion H2; subst; reflexivity.
  - inversion Hw as [| | | |? Hwl|]; subst.
    rewrite Forall_forall in IH, Hwl.
    inversion H1; subst; inversion H2; subst; try reflexivity; try congruence.
    match goal with
    | Ha : Forall2 _ l ?a, Hb : Forall2 _ l ?b |- _ =>
        assert (Ht : a = b); [|now rewrite Ht];
        eapply Forall2_unique; [|exact Ha | exact Hb]
    end.
    intros x Hx b1 b2 Hb1 Hb2. eapply IH; eauto.
  - inversion Hw as [| | | | |? Hnd Hwd]; subst.
    rewrite Forall_forall in IH, Hwd.
    inversion H1; subst; inversion H2; subst; try reflexivity; try congruence.
    match goal with
    | Hp1 : Permutation ?i1 d, Ha1 : ascending ?i1,
      Hp2 : Permutation ?i2 d, Ha2 : ascending ?i2 |- _ =>
        assert (Hi : i1 = i2)
          by (eapply ascending_permutation_unique; eassumption);
        subst i2
    end.
    match goal with
    | Ha : Forall2 _ ?i ?a, Hb : Forall2 _ ?i ?b |- _ =>
        assert (Ht : a = b); [|now rewrite Ht];
        eapply Forall2_unique; [|exact Ha | exact Hb]
    end.
    intros x Hx b1 b2 Hb1 Hb2.
    assert (Hin : In x d) by (eapply Permutation_in; eassumption).
    cbv beta in Hb1, Hb2.
    exact (IH x Hin (Hwd x Hin) (S level) b1 b2 Hb1 Hb2).
Qed.

(** As first stated the claim fails on Python's own equality of mappings:
    the mapping of [a] to 1 equals the mapping of [a] to [True], and their
    canonical bytes differ, the encoder writing each value after its
    type. *)
Lemma equal_mappings_counterexample :
  py_eqb (VDict [(str "a", VInt 1)]) (VDict [(str "a", VBool true)]) = true /\
  canonical_bytes (VDict [(str "a", VInt 1)]) <>
  canonical_bytes (VDict [(str "a", VBool true)]).
Proof.
  split; [reflexivity|].
  intros H. vm_compute in H. discriminate H.
Qed.

(** C2 (amended). The canonical serialization of a payload mapping is the
    canonical form of the specification and no other text: the items in
    ascending lexicographic order of their keys, each on a line of its own
    as key, colon, space, value, indented by four spaces per level and
    separated by commas, the nested values by the same rule; it is pure
    ASCII, so the canonical bytes are this text.  Hence two payloads that
    hold the same keys with the same values, of the same types, in whatever
    order they were built, have identical canonical bytes. *)
Theorem canonical_form_of_equal_mappings (p1 p2 : dict) :
  same_object (VDict p1) (VDict p2) ->
  well_formed (VDict p1) ->
  well_formed (VDict p2) ->
  canonical 0 (VDict p1) (Json.dumps_canonical (VDict p1)) /\
  (forall text,
      canonical 0 (VDict p1) text -> text = Json.dumps_canonical (VDict p1)) /\
  Json.dumps_canonical (VDict p2) = Json.dumps_canonical (VDict p1) /\
  canonical_bytes (VDict p1) = Some (Json.dumps_canonical (VDict p1)) /\
  canonical_bytes (VDict p2) = canonical_bytes (VDict p1).
Proof.
  intros Hs Hw1 Hw2.
  assert (Hc : canonical 0 (VDict p1) (Json.dumps_canonical (VDict p1)))
    by (apply iterencode_canonical; exact Hw1).
  assert (He : Json.dumps_canonical (VDict p1) = Json.dumps_canonical (VDict p2))
    by (apply iterencode_same_object; assumption).
  split; [exact Hc|].
  split; [intros text Ht; exact (canonical_unique _ Hw1 0%nat _ _ Ht Hc)|].
  split; [now rewrite He|].
  split; [apply dumps_canonical_utf8|].
  unfold canonical_bytes. now rewrite He.
Qed.

(** The payload {"b":1,"a":2} and the same mapping built the other way
    round: both have the canonical form that opens a brace, writes [a] and
    2 on a first line, [b] and 1 on a second, and closes the brace. *)
Lemma canonical_form_of_equal_mappings_witness :
  canonical 0 (VDict [(str "b", VInt 1); (str "a", VInt 2)])
    (str "{" ++ [10] ++
     str "    " ++ [34] ++ str "a" ++ [34] ++ str ": 2," ++ [10] ++
     str "    " ++ [34] ++ str "b" ++ [34] ++ str ": 1" ++ [10] ++
     str "}") /\
  Json.dumps_canonical (VDict [(str "a", VInt 2); (str "b", VInt 1)]) =
    str "{" ++ [10] ++
    str "    " ++ [34] ++ str "a" ++ [34] ++ str ": 2," ++ [10] ++
    str "    " ++ [34] ++ str "b" ++ [34] ++ str ": 1" ++ [10] ++
    str "}" /\
  canonical_bytes (VDict [(str "a", VInt 2); (str "b", VInt 1)]) =
  canonical_bytes (VDict [(str "b", VInt 1); (str "a", VInt 2)]).
Proof.
  destruct (canonical_form_of_equal_mappings
              [(str "b", VInt 1); (str "a", VInt 2)]
              [(str "a", VInt 2); (str "b", VInt 1)])
    as (Hc & _ & He & _ & Hb).
  - apply same_dict with (d := [(str "b", VInt 1); (str "a", VInt 2)]).
    + repeat constructor.
    + apply perm_swap.
  - constructor.
    + repeat constructor; simpl; intuition discriminate.
    + repeat constructor.
  - constructor.
    + repeat constructor; simpl; intuition discriminate.
    + repeat constructor.
  - split; [exact Hc|]. split; [exact He | exact Hb].
Defined.

(** A nested payload, checked against the output of the encoder itself:
    the inner mapping is sorted too and indented one level deeper. *)
Example dumps_nested :
  Json.dumps_canonical
    (VDict [(str "b", VList [VInt 1; VDict [(str "z", VNone); (str "y", VList [])];
                            VBool true]);
            (str "a", VDict [])]) =
  str "{" ++ [10] ++
  str "    " ++ [34] ++ str "a" ++ [34] ++ str ": {}," ++ [10] ++
  str "    " ++ [34] ++ str "b" ++ [34] ++ str ": [" ++ [10] ++
  str "        1," ++ [10] ++
  str "        {" ++ [10] ++
  str "            " ++ [34] ++ str "y" ++ [34] ++ str ": []," ++ [10] ++
  str "            " ++ [34] ++ str "z" ++ [34] ++ str ": null" ++ [10] ++
  str "        }," ++ [10] ++
  str "        true" ++ [10] ++
  str "    ]" ++ [10] ++
  str "}".
Proof. vm_compute. reflexivity. Qed.

(** ** The monad *)

Lemma bind_ret {A B} (a : A) (f : A -> M B) w : bind (ret a) f w = f a w.
Proof. unfold bind, ret. now destruct (f a w). Qed.

Lemma bind_raise {A B} e (f : A -> M B) w : bind (raise e) f w = (Raise e, []).
Proof. reflexivity. Qed.

Lemma bind_exit {A B} c (f : A -> M B) w : bind (sys_exit c) f w = (Exit c, []).
Proof. reflexivity. Qed.

Lemma bind_run {A B} (m : M A) (f : A -> M B) w :
  bind m f w =
  match m w with
  | (Ret a, t) => (fst (f a w), t ++ snd (f a w))
  | (Exit c, t) => (Exit c, t)
  | (Raise e, t) => (Raise e, t)
  end.
Proof.
  unfold bind. destruct (m w) as [[a|c|e] t]; try reflexivity.
  now destruct (f a w).
Qed.

Lemma bytes_utf8_some s b w : utf8 s = Some b -> bytes_utf8 s w = (Ret b, []).
Proof. unfold bytes_utf8. now intros ->. Qed.

Lemma bytes_utf8_none s w :
  utf8 s = None -> bytes_utf8 s w = (Raise UnicodeEncodeError, []).
Proof. unfold bytes_utf8. now intros ->. Qed.

(** ** The signer *)

(** With a supplied token the signer is this function of its arguments. *)
Lemma sign_data_supplied user tok data w :
  sign_data user (Some tok) data w =
  match utf8 tok, utf8 user with
  | Some kb, Some ub =>
      if truthy data then
        (Ret [(str "data", data); (str "user", VStr user);
              (str "signature",
               VStr (hex (hmac_sha512 kb (ub ++ Json.dumps_canonical data))))],
         [])
      else
        (Ret [(str "user", VStr user);
              (str "signature", VStr (hex (hmac_sha512 kb ub)))],
         [])
  | _, _ => (Raise UnicodeEncodeError, [])
  end.
Proof.
  unfold sign_data. rewrite bind_ret. cbv beta.
  unfold bytes_utf8 at 1.
  destruct (utf8 tok) as [kb|]; [|now rewrite bind_raise].
  rewrite bind_ret. cbv beta. unfold bytes_utf8 at 1.
  destruct (utf8 user) as [ub|]; [|now rewrite bind_raise].
  rewrite bind_ret. cbv beta zeta.
  destruct (truthy data).
  - unfold bytes_utf8. rewrite dumps_canonical_utf8. cbv beta iota.
    rewrite bind_run, bind_ret. unfold ret. cbv beta iota.
    unfold Hmac.hexdigest. cbn [fst snd]. rewrite hmac_update_digest.
    reflexivity.
  - rewrite bind_ret. unfold ret. cbv beta.
    unfold Hmac.hexdigest. cbn [fst snd]. rewrite hmac_new_digest.
    reflexivity.
Qed.

Example sign_data_alice :
  sign_data (str "alice") (Some (str "deadbeef"))
            (VDict [(str "name", VStr (str "myrepo")); (str "type", VStr (str "git"))])
            offline =
  (Ret [(str "data",
         VDict [(str "name", VStr (str "myrepo")); (str "type", VStr (str "git"))]);
        (str "user", VStr (str "alice"));
        (str "signature",
         VStr (str "95e933c29131f42db212d20ce4fe397e814e7b4f981ef697b8729f869e42564ca2d6a3718d859dfe140610451c49ac298701efcbae4a92a7a023d2c9b4602099"))],
   []).
Proof. vm_compute. reflexivity. Qed.

(** C1 (amended). For every identity, every supplied token and every
    non-empty payload mapping, [sign_data] returns, without any event, the
    envelope of payload, identity and signature, where the signature is
    HMAC-SHA512 with key the token bytes over the identity bytes followed by
    the canonical payload bytes, written as 128 lowercase hexadecimal
    digits. *)
Theorem sign_data_signature user tok (d : dict) ub kb w :
  utf8 user = Some ub ->
  utf8 tok = Some kb ->
  d <> [] ->
  exists cb signature,
    canonical_bytes (VDict d) = Some cb /\
    signature = hex (hmac_sha512 kb (ub ++ cb)) /\
    sign_data user (Some tok) (VDict d) w =
      (Ret [(str "data", VDict d); (str "user", VStr user);
            (str "signature", VStr signature)], []) /\
    Forall is_lower_hex signature /\
    List.length signature = 128%nat.
Proof.
  intros Hu Hk Hd.
  exists (Json.dumps_canonical (VDict d)).
  exists (hex (hmac_sha512 kb (ub ++ Json.dumps_canonical (VDict d)))).
  split; [apply dumps_canonical_utf8|].
  split; [reflexivity|].
  split.
  - rewrite sign_data_supplied, Hu, Hk.
    destruct d; [congruence | reflexivity].
  - apply hmac_hexdigest_shape.
Qed.

Lemma sign_data_signature_witness :
  utf8 (str "alice") = Some (str "alice") /\
  utf8 (str "deadbeef") = Some (str "deadbeef") /\
  [(str "name", VStr (str "myrepo")); (str "type", VStr (str "git"))] <> [] /\
  exists cb signature,
    canonical_bytes
      (VDict [(str "name", VStr (str "myrepo")); (str "type", VStr (str "git"))])
    = Some cb /\
    signature = hex (hmac_sha512 (str "deadbeef") (str "alice" ++ cb)) /\
    sign_data (str "alice") (Some (str "deadbeef"))
      (VDict [(str "name", VStr (str "myrepo")); (str "type", VStr (str "git"))])
      offline =
      (Ret [(str "data",
             VDict [(str "name", VStr (str "myrepo")); (str "type", VStr (str "git"))]);
            (str "user", VStr (str "alice"));
            (str "signature", VStr signature)], []) /\
    Forall is_lower_hex signature /\
    List.length signature = 128%nat.
Proof.
  split; [reflexivity|]. split; [reflexivity|]. split; [discriminate|].
  apply (sign_data_signature (str "alice") (str "deadbeef")
           [(str "name", VStr (str "myrepo")); (str "type", VStr (str "git"))]
           (str "alice") (str "deadbeef") offline);
    [reflexivity | reflexivity | discriminate].
Defined.

(** The claim as first stated fails at the empty mapping: its canonical
    form is the two bytes of an opening and a closing brace, yet the
    signature covers the identity alone, and the two digests differ. *)
Lemma sign_data_empty_mapping_counterexample :
  canonical_bytes (VDict []) = Some (str "{}") /\
  sign_data (str "alice") (Some (str "deadbeef")) (VDict []) offline =
    (Ret [(str "user", VStr (str "alice"));
          (str "signature",
           VStr (hex (hmac_sha512 (str "deadbeef") (str "alice"))))], []) /\
  hex (hmac_sha512 (str "deadbeef") (str "alice")) <>
  hex (hmac_sha512 (str "deadbeef") (str "alice" ++ str "{}")).
Proof.
  split; [reflexivity|]. split; [vm_compute; reflexivity|].
  intros H. vm_compute in H. discriminate H.
Qed.

(** C3. With a supplied token and no payload the signature is HMAC-SHA512
    of the identity bytes alone, written as 128 lowercase hexadecimal
    digits, and the envelope holds the identity and the signature and
    nothing else: it has no [data] entry. *)
Theorem sign_data_absent_payload user tok ub kb w :
  utf8 user = Some ub ->
  utf8 tok = Some kb ->
  exists envelope signature,
    sign_data user (Some tok) VNone w = (Ret envelope, []) /\
    signature = hex (hmac_sha512 kb ub) /\
    Forall is_lower_hex signature /\
    List.length signature = 128%nat /\
    envelope = [(str "user", VStr user); (str "signature", VStr signature)] /\
    signature_of envelope = Some (VStr signature) /\
    dict_get (str "user") envelope = Some (VStr user) /\
    dict_get (str "data") envelope = None /\
    keys envelope = [str "user"; str "signature"].
Proof.
  intros Hu Hk.
  exists [(str "user", VStr user);
          (str "signature", VStr (hex (hmac_sha512 kb ub)))].
  exists (hex (hmac_sha512 kb ub)).
  split; [rewrite sign_data_supplied, Hu, Hk; reflexivity|].
  split; [reflexivity|].
  destruct (hmac_hexdigest_shape kb ub) as [Hh Hl].
  split; [exact Hh|]. split; [exact Hl|].
  repeat split; reflexivity.
Qed.

(** Identity [alice] and token [deadbeef]: the signature is the digest that
    the [hmac] module of Python gives for them. *)
Lemma sign_data_absent_payload_witness :
  sign_data (str "alice") (Some (str "deadbeef")) VNone offline =
    (Ret [(str "user", VStr (str "alice"));
          (str "signature",
           VStr (str "e4e149dad9e42151c9b1507afd84c0f488b2e2f0bf811fc341064c70a68b4de4cecf934b27e47de819d39fdf36926e97aaa9502c5bcdabfc115be92b14f52b71"))],
     []) /\
  dict_get (str "data")
    [(str "user", VStr (str "alice"));
     (str "signature",
      VStr (str "e4e149dad9e42151c9b1507afd84c0f488b2e2f0bf811fc341064c70a68b4de4cecf934b27e47de819d39fdf36926e97aaa9502c5bcdabfc115be92b14f52b71"))]
  = None.
Proof.
  destruct (sign_data_absent_payload (str "alice") (str "deadbeef")
              (str "alice") (str "deadbeef") offline)
    as (envelope & signature & Hs & Hsig & _ & _ & He & _ & _ & Hd & _);
    [reflexivity | reflexivity |].
  assert (E : hex (hmac_sha512 (str "deadbeef") (str "alice")) =
              str "e4e149dad9e42151c9b1507afd84c0f488b2e2f0bf811fc341064c70a68b4de4cecf934b27e47de819d39fdf36926e97aaa9502c5bcdabfc115be92b14f52b71")
    by (vm_compute; reflexivity).
  rewrite E in Hsig. subst signature. subst envelope.
  split; [exact Hs | exact Hd].
Defined.

(** C4. With a supplied token, signing is a function of identity, token and
    payload alone: it gives the same result in any two surroundings, and it
    performs no event (no prompt, no network call, no output). *)
Theorem sign_data_deterministic user tok data w1 w2 :
  sign_data user (Some tok) data w1 = sign_data user (Some tok) data w2 /\
  snd (sign_data user (Some tok) data w1) = [].
Proof.
  rewrite !sign_data_supplied. split; [reflexivity|].
  destruct (utf8 tok), (utf8 user), (truthy data); reflexivity.
Qed.

(** C9. With a supplied token, signing the empty mapping gives exactly what
    signing no payload gives, and the envelope has no [data] entry. *)
Theorem sign_data_empty_mapping_as_absent user tok w :
  sign_data user (Some tok) (VDict []) w = sign_data user (Some tok) VNone w /\
  omits_payload (fst (sign_data user (Some tok) (VDict []) w)).
Proof.
  rewrite !sign_data_supplied. split; [reflexivity|].
  destruct (utf8 tok), (utf8 user); simpl; auto.
Qed.

(** ** The dispatcher *)

(** The call and the decoding of the reply, the body of the [try]. *)
Lemma exchange_run rq w :
  (resp <- send rq ;; data <- response_json resp ;; ret (resp, data)) w =
  match server w rq with
  | Fails e => (Raise e, [EvRequest rq])
  | Responds r =>
      match json r with
      | Some body => (Ret (r, body), [EvRequest rq])
      | None => (Raise JSONDecodeError, [EvRequest rq])
      end
  end.
Proof.
  rewrite bind_run. unfold send.
  destruct (server w rq) as [e|r]; [reflexivity|].
  rewrite bind_run. unfold response_json.
  destruct (json r) as [body|]; reflexivity.
Qed.

(** Once the envelope is signed, [blih] sends one request and passes the
    verdict on the reply. *)
Lemma blih_after_signing method resource user token data w signed t :
  sign_data user token data w = (Ret signed, t) ->
  blih method resource user token data w =
  (fst (verdict (server w (request_for method resource signed))),
   t ++ EvRequest (request_for method resource signed) ::
     snd (verdict (server w (request_for method resource signed)))).
Proof.
  intros Hs. unfold blih.
  rewrite bind_run. unfold try_except at 1.
  rewrite bind_run, Hs. cbv beta iota.
  change (mkRequest method (URL ++ resource) headers
            (Json.dumps_default (VDict signed)))
    with (request_for method resource signed).
  set (rq := request_for method resource signed).
  rewrite exchange_run.
  destruct (server w rq) as [e|r].
  - destruct e; simpl; rewrite <- ?app_assoc; reflexivity.
  - unfold verdict. destruct (json r) as [body|]; [|simpl; reflexivity].
    destruct (status_code r =? 200) eqn:E; simpl; rewrite E; simpl.
    + now rewrite app_nil_r.
    + destruct body as [| | | | |d]; simpl; rewrite <- ?app_assoc; try reflexivity.
      destruct (dict_get (str "error") d) eqn:Hd; simpl;
        rewrite <- ?app_assoc; reflexivity.
Qed.

Lemma blih_signing_exits method resource user token data w c t :
  sign_data user token data w = (Exit c, t) ->
  blih method resource user token data w = (Exit c, t).
Proof.
  intros Hs. unfold blih.
  rewrite bind_run. unfold try_except at 1.
  rewrite bind_run, Hs. reflexivity.
Qed.

Lemma blih_signing_raises method resource user token data w e t :
  sign_data user token data w = (Raise e, t) ->
  e = UnicodeEncodeError \/ e = EOFError ->
  blih method resource user token data w = (Raise e, t).
Proof.
  intros Hs He. unfold blih.
  rewrite bind_run. unfold try_except at 1.
  rewrite bind_run, Hs. destruct He; subst; reflexivity.
Qed.

(** Without a token the signer prompts once, then goes on with the digest
    of what was typed. *)
Lemma sign_data_prompted user data w :
  sign_data user None data w =
  match tty w with
  | Typed secret =>
      match utf8 secret with
      | Some b =>
          (fst (sign_data user (Some (hex (SHA512.sha512 b))) data w),
           EvGetpass :: snd (sign_data user (Some (hex (SHA512.sha512 b))) data w))
      | None => (Raise UnicodeEncodeError, [EvGetpass])
      end
  | Interrupted => (Exit 1, [EvGetpass])
  | EndOfInput => (Raise EOFError, [EvGetpass])
  end.
Proof.
  unfold sign_data at 1. rewrite bind_run.
  match goal with
  | |- context [try_except ?m ?c w] =>
      assert (Ht : try_except m c w =
                   match tty w with
                   | Typed secret =>
                       match utf8 secret with
                       | Some b => (Ret (hex (SHA512.sha512 b)), [EvGetpass])
                       | None => (Raise UnicodeEncodeError, [EvGetpass])
                       end
                   | Interrupted => (Exit 1, [EvGetpass])
                   | EndOfInput => (Raise EOFError, [EvGetpass])
                   end)
  end.
  { unfold try_except. rewrite bind_run. unfold getpass.
    destruct (tty w) as [secret| |]; try reflexivity.
    rewrite bind_run. unfold bytes_utf8.
    destruct (utf8 secret); reflexivity. }
  rewrite Ht. destruct (tty w) as [secret| |]; try reflexivity.
  destruct (utf8 secret) as [b|]; [|reflexivity].
  unfold sign_data. rewrite (bind_ret (hex (SHA512.sha512 b))). reflexivity.
Qed.

Lemma verdict_no_prompt rep : prompts (snd (verdict rep)) = 0%nat.
Proof.
  unfold verdict. destruct rep as [e|r]; [destruct e; reflexivity|].
  destruct (json r) as [body|]; [|reflexivity].
  destruct (status_code r =? 200); [reflexivity|].
  destruct body as [| | | | |d]; try reflexivity.
  destruct (dict_get (str "error") d); reflexivity.
Qed.

(** C5. When the reply has a body that does not parse, [req.json()] raises
    inside the [try], no [except] clause matches, and the exception leaves
    [blih]: nothing is logged and [sys.exit] is not reached, whatever the
    status of the reply. *)
Theorem blih_unparseable_body method resource user token data w signed t r :
  sign_data user token data w = (Ret signed, t) ->
  server w (request_for method resource signed) = Responds r ->
  json r = None ->
  blih method resource user token data w =
  (Raise JSONDecodeError, t ++ [EvRequest (request_for method resource signed)]).
Proof.
  intros Hs Hr Hj. rewrite (blih_after_signing _ _ _ _ _ _ _ _ Hs), Hr.
  unfold verdict. rewrite Hj. reflexivity.
Qed.

(** When the reply has a status other than 200 and its body parses to a
    mapping, [blih] logs at level CRITICAL the [error] entry of the body
    when there is one and the text [Unknown error] when there is none, and
    exits with status 1. *)
Theorem blih_error_status method resource user token data w signed t r d :
  sign_data user token data w = (Ret signed, t) ->
  server w (request_for method resource signed) = Responds r ->
  status_code r <> 200 ->
  json r = Some (VDict d) ->
  blih method resource user token data w =
  (Exit 1,
   t ++ [EvRequest (request_for method resource signed);
         EvCritical match dict_get (str "error") d with
                    | Some msg => msg
                    | None => VStr (str "Unknown error")
                    end]).
Proof.
  intros Hs Hr Hst Hj. rewrite (blih_after_signing _ _ _ _ _ _ _ _ Hs), Hr.
  unfold verdict. rewrite Hj.
  apply Z.eqb_neq in Hst. rewrite Hst.
  destruct (dict_get (str "error") d); reflexivity.
Qed.

(** C7. When the reply has status 200 and a body that parses, [blih]
    returns the parsed body; it neither logs nor exits. *)
Theorem blih_success method resource user token data w signed t r body :
  sign_data user token data w = (Ret signed, t) ->
  server w (request_for method resource signed) = Responds r ->
  status_code r = 200 ->
  json r = Some body ->
  blih method resource user token data w =
  (Ret body, t ++ [EvRequest (request_for method resource signed)]).
Proof.
  intros Hs Hr Hst Hj. rewrite (blih_after_signing _ _ _ _ _ _ _ _ Hs), Hr.
  unfold verdict. rewrite Hj, Hst. reflexivity.
Qed.

Lemma blih_unparseable_body_witness :
  json (mkResponse 500 None) = None /\
  blih delete (str "/repository/myrepo") (str "alice") (Some (str "deadbeef"))
       VNone (answering EndOfInput (Responds (mkResponse 500 None))) =
  (Raise JSONDecodeError,
   [] ++ [EvRequest (request_for delete (str "/repository/myrepo") alice_envelope)]).
Proof.
  split; [reflexivity|].
  apply (blih_unparseable_body delete (str "/repository/myrepo") (str "alice")
           (Some (str "deadbeef")) VNone
           (answering EndOfInput (Responds (mkResponse 500 None)))
           alice_envelope [] (mkResponse 500 None)).
  - vm_compute. reflexivity.
  - reflexivity.
  - reflexivity.
Defined.

(** A 403 whose body is the mapping {"error":"forbidden"}: the message is
    [forbidden]. *)
Lemma blih_error_status_witness :
  status_code (mkResponse 403 (Some (VDict [(str "error", VStr (str "forbidden"))])))
    <> 200 /\
  blih delete (str "/repository/myrepo") (str "alice") (Some (str "deadbeef"))
       VNone
       (answering EndOfInput
          (Responds (mkResponse 403
                       (Some (VDict [(str "error", VStr (str "forbidden"))]))))) =
  (Exit 1,
   [] ++ [EvRequest (request_for delete (str "/repository/myrepo") alice_envelope);
          EvCritical (VStr (str "forbidden"))]).
Proof.
  split; [discriminate|].
  apply (blih_error_status delete (str "/repository/myrepo") (str "alice")
           (Some (str "deadbeef")) VNone
           (answering EndOfInput
              (Responds (mkResponse 403
                           (Some (VDict [(str "error", VStr (str "forbidden"))])))))
           alice_envelope []
           (mkResponse 403 (Some (VDict [(str "error", VStr (str "forbidden"))])))
           [(str "error", VStr (str "forbidden"))]).
  - vm_compute. reflexivity.
  - reflexivity.
  - discriminate.
  - reflexivity.
Defined.

(** C6. When the reply has a status other than 200 and its body parses to
    something that is not a mapping (an array, a string, a number, [null]),
    reading ['error'] from it raises [TypeError], which the [except
    KeyError] clause lets through: the exception leaves [blih], no message
    is logged, neither the [error] entry nor the generic one, and
    [sys.exit(1)] is not reached. *)
Theorem blih_error_body_not_a_mapping
        method resource user token data w signed t r body :
  sign_data user token data w = (Ret signed, t) ->
  server w (request_for method resource signed) = Responds r ->
  status_code r <> 200 ->
  json r = Some body ->
  (forall d, body <> VDict d) ->
  blih method resource user token data w =
    (Raise TypeError, t ++ [EvRequest (request_for method resource signed)]) /\
  criticals (snd (blih method resource user token data w)) = criticals t /\
  fst (blih method resource user token data w) <> Exit 1.
Proof.
  intros Hs Hr Hst Hj Hb.
  assert (He : blih method resource user token data w =
               (Raise TypeError,
                t ++ [EvRequest (request_for method resource signed)])).
  { rewrite (blih_after_signing _ _ _ _ _ _ _ _ Hs), Hr.
    unfold verdict. rewrite Hj.
    apply Z.eqb_neq in Hst. rewrite Hst.
    destruct body as [| | | | |d]; try reflexivity.
    exfalso. now apply (Hb d). }
  rewrite He. split; [reflexivity|]. split; [|discriminate].
  cbn [snd]. unfold criticals. rewrite flat_map_app. cbn [flat_map].
  now rewrite app_nil_r.
Qed.

(** A 403 whose body is the JSON array [[]]. *)
Lemma blih_error_body_not_a_mapping_witness :
  blih delete (str "/repository/myrepo") (str "alice") (Some (str "deadbeef"))
       VNone
       (answering EndOfInput (Responds (mkResponse 403 (Some (VList []))))) =
    (Raise TypeError,
     [] ++ [EvRequest (request_for delete (str "/repository/myrepo") alice_envelope)]) /\
  criticals
    (snd (blih delete (str "/repository/myrepo") (str "alice")
               (Some (str "deadbeef")) VNone
               (answering EndOfInput
                  (Responds (mkResponse 403 (Some (VList []))))))) =
    criticals [] /\
  fst (blih delete (str "/repository/myrepo") (str "alice")
            (Some (str "deadbeef")) VNone
            (answering EndOfInput
               (Responds (mkResponse 403 (Some (VList [])))))) <> Exit 1.
Proof.
  apply (blih_error_body_not_a_mapping delete (str "/repository/myrepo")
           (str "alice") (Some (str "deadbeef")) VNone
           (answering EndOfInput (Responds (mkResponse 403 (Some (VList [])))))
           alice_envelope [] (mkResponse 403 (Some (VList []))) (VList [])).
  - vm_compute. reflexivity.
  - reflexivity.
  - discriminate.
  - reflexivity.
  - discriminate.
Defined.

(** A 200 whose body is {"message":"ok"}: the caller gets the mapping and
    reads [ok] under [message]. *)
Lemma blih_success_witness :
  status_code (mkResponse 200 (Some (VDict [(str "message", VStr (str "ok"))])))
    = 200 /\
  blih delete (str "/repository/myrepo") (str "alice") (Some (str "deadbeef"))
       VNone
       (answering EndOfInput
          (Responds (mkResponse 200
                       (Some (VDict [(str "message", VStr (str "ok"))]))))) =
  (Ret (VDict [(str "message", VStr (str "ok"))]),
   [] ++ [EvRequest (request_for delete (str "/repository/myrepo") alice_envelope)]) /\
  dict_get (str "message") [(str "message", VStr (str "ok"))] =
    Some (VStr (str "ok")).
Proof.
  split; [reflexivity|]. split; [|reflexivity].
  apply (blih_success delete (str "/repository/myrepo") (str "alice")
           (Some (str "deadbeef")) VNone
           (answering EndOfInput
              (Responds (mkResponse 200
                           (Some (VDict [(str "message", VStr (str "ok"))])))))
           alice_envelope []
           (mkResponse 200 (Some (VDict [(str "message", VStr (str "ok"))])))
           (VDict [(str "message", VStr (str "ok"))])).
  - vm_compute. reflexivity.
  - reflexivity.
  - reflexivity.
  - reflexivity.
Defined.

Lemma sign_data_supplied_result user tok data w :
  sign_data user (Some tok) data w = (Raise UnicodeEncodeError, []) \/
  exists signed, sign_data user (Some tok) data w = (Ret signed, []).
Proof.
  rewrite sign_data_supplied.
  destruct (utf8 tok); [|now left].
  destruct (utf8 user); [|now left].
  destruct (truthy data); right; eexists; reflexivity.
Qed.

Lemma blih_prompted_trace method resource user data w :
  exists rest,
    snd (blih method resource user None data w) = EvGetpass :: rest /\
    prompts rest = 0%nat.
Proof.
  pose proof (sign_data_prompted user data w) as Hp.
  destruct (tty w) as [secret| |].
  - destruct (utf8 secret) as [b|].
    + destruct (sign_data_supplied_result user (hex (SHA512.sha512 b)) data w)
        as [Hr|[signed Hr]]; rewrite Hr in Hp; cbn [fst snd] in Hp.
      * rewrite (blih_signing_raises _ _ _ _ _ _ _ _ Hp) by auto.
        exists []. auto.
      * rewrite (blih_after_signing _ _ _ _ _ _ _ _ Hp).
        eexists. split; [reflexivity|]. apply verdict_no_prompt.
    + rewrite (blih_signing_raises _ _ _ _ _ _ _ _ Hp) by auto.
      exists []. auto.
  - rewrite (blih_signing_exits _ _ _ _ _ _ _ _ Hp). exists []. auto.
  - rewrite (blih_signing_raises _ _ _ _ _ _ _ _ Hp) by auto.
    exists []. auto.
Qed.

(** C8. A request made without a token prompts exactly once, and the
    prompt is the first event of the run, ahead of any network call.  When
    the operator interrupts the prompt the run ends there with exit status
    1: no envelope is returned and no request is sent. *)
Theorem blih_prompts_once method resource user data srv :
  (forall k, exists rest,
      snd (blih method resource user None data (mkWorld k srv)) =
        EvGetpass :: rest /\
      prompts rest = 0%nat /\
      prompts (snd (blih method resource user None data (mkWorld k srv))) = 1%nat) /\
  blih method resource user None data (mkWorld Interrupted srv) =
    (Exit 1, [EvGetpass]) /\
  requests (snd (blih method resource user None data (mkWorld Interrupted srv))) = [].
Proof.
  assert (Hi : blih method resource user None data (mkWorld Interrupted srv) =
               (Exit 1, [EvGetpass])).
  { apply blih_signing_exits. now rewrite sign_data_prompted. }
  split; [|split; [exact Hi | now rewrite Hi]].
  intros k.
  destruct (blih_prompted_trace method resource user data (mkWorld k srv))
    as (rest & Ht & Hn).
  exists rest. split; [exact Ht|]. split; [exact Hn|].
  rewrite Ht. unfold prompts in *. simpl. now rewrite Hn.
Qed.

(** ** The command *)

Lemma repository_create_trace args w :
  snd (repository_create args w) =
  EvPrint (PArguments args) ::
  snd ((data <- blih post (str "/repositories") (user args) (token args)
                     (VDict [(str "name", VStr (name args));
                             (str "type", VStr (str "git"))]) ;;
        message <- getitem data (str "message") ;;
        if truthy message then print (PValue message) else ret tt) w).
Proof. unfold repository_create. rewrite bind_run. reflexivity. Qed.

(** C10. [repository_create] first prints the mapping of its arguments,
    token included, and only then issues the request: whenever a token was
    supplied, the first event of the run writes it to standard output, and
    two runs whose tokens differ differ in what they print. *)
Theorem repository_create_prints_token args tok w :
  token args = Some tok ->
  exists rest,
    snd (repository_create args w) = EvPrint (PArguments args) :: rest /\
    hd_error (stdout (snd (repository_create args w))) = Some (PArguments args) /\
    (forall args' w',
        token args' <> Some tok ->
        stdout (snd (repository_create args' w')) <>
        stdout (snd (repository_create args w))).
Proof.
  intros Htok. eexists. split; [apply repository_create_trace|].
  split; [now rewrite repository_create_trace|].
  intros args' w' Hne. rewrite !repository_create_trace. simpl.
  intros Heq. injection Heq as Heq _. apply Hne. now rewrite Heq.
Qed.

Lemma repository_create_prints_token_witness :
  token alice_creates = Some (str "deadbeef") /\
  exists rest,
    snd (repository_create alice_creates offline) =
      EvPrint (PArguments alice_creates) :: rest /\
    hd_error (stdout (snd (repository_create alice_creates offline))) =
      Some (PArguments alice_creates) /\
    (forall args' w',
        token args' <> Some (str "deadbeef") ->
        stdout (snd (repository_create args' w')) <>
        stdout (snd (repository_create alice_creates offline))).
Proof.
  split; [reflexivity|].
  apply (repository_create_prints_token alice_creates (str "deadbeef") offline).
  reflexivity.
Defined.

(** * Further properties of the program *)

(** ** The dispatcher: failures of the transport *)

Lemma sign_data_outcome user token data w :
  exists r t,
    sign_data user token data w = (r, t) /\
    (t = [] \/ t = [EvGetpass]) /\
    (r = Exit 1 \/ r = Raise UnicodeEncodeError \/ r = Raise EOFError \/
     exists signed, r = Ret signed).
Proof.
  destruct token as [tok|].
  - destruct (sign_data_supplied_result user tok data w) as [H|[signed H]];
      rewrite H.
    + exists (Raise UnicodeEncodeError), []. repeat split; auto 8.
    + exists (Ret signed), []. repeat split; eauto 6.
  - rewrite sign_data_prompted. destruct (tty w) as [secret| |].
    + destruct (utf8 secret) as [b|].
      * destruct (sign_data_supplied_result user (hex (SHA512.sha512 b)) data w)
          as [H|[signed H]]; rewrite H; cbn [fst snd].
        -- exists (Raise UnicodeEncodeError), [EvGetpass]. repeat split; auto 8.
        -- exists (Ret signed), [EvGetpass]. repeat split; eauto 6.
      * exists (Raise UnicodeEncodeError), [EvGetpass]. repeat split; auto 8.
    + exists (Exit 1), [EvGetpass]. repeat split; auto 8.
    + exists (Raise EOFError), [EvGetpass]. repeat split; auto 8.
Qed.

(** When the service cannot be reached or does not answer in time, [blih]
    logs that it cannot connect to the origin and exits with status 1,
    after the one request it made. *)
Theorem blih_cannot_connect method resource user token data w signed t e :
  sign_data user token data w = (Ret signed, t) ->
  server w (request_for method resource signed) = Fails e ->
  e = ConnectionError \/ e = Timeout ->
  blih method resource user token data w =
  (Exit 1,
   t ++ [EvRequest (request_for method resource signed);
         EvCritical (VStr (str "Can't connect to https://blih.epitech.eu"))]).
Proof.
  intros Hs Hr He. rewrite (blih_after_signing _ _ _ _ _ _ _ _ Hs), Hr.
  destruct He; subst; reflexivity.
Qed.

Lemma blih_cannot_connect_witness :
  blih get (str "/repositories") (str "alice") (Some (str "deadbeef")) VNone
       (answering EndOfInput (Fails Timeout)) =
  (Exit 1,
   [] ++ [EvRequest (request_for get (str "/repositories") alice_envelope);
          EvCritical (VStr (str "Can't connect to https://blih.epitech.eu"))]).
Proof.
  apply (blih_cannot_connect get (str "/repositories") (str "alice")
           (Some (str "deadbeef")) VNone (answering EndOfInput (Fails Timeout))
           alice_envelope [] Timeout).
  - vm_compute. reflexivity.
  - reflexivity.
  - right. reflexivity.
Defined.

(** An exception of the transport that is neither a connection error, nor
    a timeout, nor an HTTP error leaves [blih] as it is: nothing is logged
    and [sys.exit] is not called. *)
Theorem blih_other_failure method resource user token data w signed t e :
  sign_data user token data w = (Ret signed, t) ->
  server w (request_for method resource signed) = Fails e ->
  e <> ConnectionError -> e <> Timeout -> e <> HTTPError ->
  blih method resource user token data w =
  (Raise e, t ++ [EvRequest (request_for method resource signed)]).
Proof.
  intros Hs Hr H1 H2 H3. rewrite (blih_after_signing _ _ _ _ _ _ _ _ Hs), Hr.
  destruct e; try contradiction; reflexivity.
Qed.

Lemma blih_other_failure_witness :
  blih get (str "/repositories") (str "alice") (Some (str "deadbeef")) VNone
       (answering EndOfInput (Fails RequestException)) =
  (Raise RequestException,
   [] ++ [EvRequest (request_for get (str "/repositories") alice_envelope)]).
Proof.
  apply (blih_other_failure get (str "/repositories") (str "alice")
           (Some (str "deadbeef")) VNone
           (answering EndOfInput (Fails RequestException))
           alice_envelope [] RequestException).
  - vm_compute. reflexivity.
  - reflexivity.
  - discriminate.
  - discriminate.
  - discriminate.
Defined.

(** ** The dispatcher: what a call can and cannot do *)

Lemma verdict_no_request rep : requests (snd (verdict rep)) = [].
Proof.
  unfold verdict. destruct rep as [e|r]; [destruct e; reflexivity|].
  destruct (json r) as [body|]; [|reflexivity].
  destruct (status_code r =? 200); [reflexivity|].
  destruct body as [| | | | |d]; try reflexivity.
  destruct (dict_get (str "error") d); reflexivity.
Qed.

Lemma verdict_ret rep body :
  fst (verdict rep) = Ret body ->
  exists r, rep = Responds r /\ status_code r = 200 /\ json r = Some body.
Proof.
  unfold verdict. destruct rep as [e|r]; [destruct e; discriminate|].
  destruct (json r) as [b|] eqn:Hj; [|discriminate].
  destruct (status_code r =? 200) eqn:E.
  - intros [= ->]. exists r. apply Z.eqb_eq in E. auto.
  - destruct b as [| | | | |d]; try discriminate.
    destruct (dict_get (str "error") d); discriminate.
Qed.

Lemma verdict_exit rep c : fst (verdict rep) = Exit c -> c = 1.
Proof.
  unfold verdict. destruct rep as [e|r]; [destruct e; simpl; congruence|].
  destruct (json r) as [b|]; [|discriminate].
  destruct (status_code r =? 200); [discriminate|].
  destruct b as [| | | | |d]; try discriminate.
  destruct (dict_get (str "error") d); simpl; congruence.
Qed.

(** A call of [blih] makes at most one request, and never one when the
    envelope could not be signed; the request is the given method on the
    origin followed by the resource, with the fixed headers and the JSON
    text of the signed envelope as its body.  There is no retry. *)
Theorem blih_single_request method resource user token data w :
  (requests (snd (blih method resource user token data w)) = [] /\
   forall signed t, sign_data user token data w <> (Ret signed, t)) \/
  exists signed t,
    sign_data user token data w = (Ret signed, t) /\
    requests (snd (blih method resource user token data w)) =
      [mkRequest method (str "https://blih.epitech.eu" ++ resource)
                 [(str "User-Agent", str "blih-1.7");
                  (str "Content-Type", str "application/json")]
                 (Json.dumps_default (VDict signed))].
Proof.
  destruct (sign_data_outcome user token data w)
    as (r & t & Hs & Ht & [->|[->|[->|[signed ->]]]]).
  - left. rewrite (blih_signing_exits _ _ _ _ _ _ _ _ Hs).
    split; [destruct Ht; subst; reflexivity | rewrite Hs; congruence].
  - left. rewrite (blih_signing_raises _ _ _ _ _ _ _ _ Hs) by auto.
    split; [destruct Ht; subst; reflexivity | rewrite Hs; congruence].
  - left. rewrite (blih_signing_raises _ _ _ _ _ _ _ _ Hs) by auto.
    split; [destruct Ht; subst; reflexivity | rewrite Hs; congruence].
  - right. exists signed, t. split; [exact Hs|].
    rewrite (blih_after_signing _ _ _ _ _ _ _ _ Hs). cbn [snd].
    unfold requests at 1. rewrite flat_map_app. cbn [flat_map].
    fold (requests (snd (verdict (server w (request_for method resource signed))))).
    rewrite verdict_no_request.
    destruct Ht; subst; reflexivity.
Qed.

(** [blih] returns a body only when the service answered with status 200
    and that body is what the answer parses to. *)
Theorem blih_returns_only_on_200 method resource user token data w body :
  fst (blih method resource user token data w) = Ret body ->
  exists signed t r,
    sign_data user token data w = (Ret signed, t) /\
    server w (request_for method resource signed) = Responds r /\
    status_code r = 200 /\
    json r = Some body.
Proof.
  destruct (sign_data_outcome user token data w)
    as (r & t & Hs & Ht & [->|[->|[->|[signed ->]]]]).
  - rewrite (blih_signing_exits _ _ _ _ _ _ _ _ Hs). discriminate.
  - rewrite (blih_signing_raises _ _ _ _ _ _ _ _ Hs) by auto. discriminate.
  - rewrite (blih_signing_raises _ _ _ _ _ _ _ _ Hs) by auto. discriminate.
  - rewrite (blih_after_signing _ _ _ _ _ _ _ _ Hs). cbn [fst].
    intros Hv. destruct (verdict_ret _ _ Hv) as (resp & Hr & Hst & Hj).
    exists signed, t, resp. auto.
Qed.

Lemma blih_returns_only_on_200_witness :
  exists signed t r,
    sign_data (str "alice") (Some (str "deadbeef")) VNone
      (answering EndOfInput
         (Responds (mkResponse 200
                      (Some (VDict [(str "message", VStr (str "ok"))]))))) =
      (Ret signed, t) /\
    server (answering EndOfInput
              (Responds (mkResponse 200
                           (Some (VDict [(str "message", VStr (str "ok"))])))))
           (request_for delete (str "/repository/myrepo") signed) = Responds r /\
    status_code r = 200 /\
    json r = Some (VDict [(str "message", VStr (str "ok"))]).
Proof.
  apply (blih_returns_only_on_200 delete (str "/repository/myrepo") (str "alice")
           (Some (str "deadbeef")) VNone
           (answering EndOfInput
              (Responds (mkResponse 200
                           (Some (VDict [(str "message", VStr (str "ok"))])))))).
  vm_compute. reflexivity.
Defined.

(** Whenever [blih] ends the process through [sys.exit], the status is 1. *)
Theorem blih_exit_status method resource user token data w c :
  fst (blih method resource user token data w) = Exit c -> c = 1.
Proof.
  destruct (sign_data_outcome user token data w)
    as (r & t & Hs & Ht & [->|[->|[->|[signed ->]]]]).
  - rewrite (blih_signing_exits _ _ _ _ _ _ _ _ Hs). simpl. congruence.
  - rewrite (blih_signing_raises _ _ _ _ _ _ _ _ Hs) by auto. discriminate.
  - rewrite (blih_signing_raises _ _ _ _ _ _ _ _ Hs) by auto. discriminate.
  - rewrite (blih_after_signing _ _ _ _ _ _ _ _ Hs). cbn [fst].
    apply verdict_exit.
Qed.

Lemma blih_exit_status_witness :
  fst (blih get (str "/repositories") (str "alice") None VNone
            (answering Interrupted (Fails Timeout))) = Exit 1 /\ 1 = 1.
Proof.
  split; [reflexivity|].
  apply (blih_exit_status get (str "/repositories") (str "alice") None VNone
           (answering Interrupted (Fails Timeout)) 1).
  reflexivity.
Defined.

(** ** UTF-8 *)

Lemma utf8_char_none_iff c : utf8_char c = None <-> surrogate c.
Proof.
  unfold utf8_char, surrogate.
  destruct (c <? 128) eqn:E1; [split; [discriminate | lia]|].
  destruct (c <? 2048) eqn:E2; [split; [discriminate | lia]|].
  destruct ((55296 <=? c) && (c <=? 57343)) eqn:E3; [split; [lia | reflexivity]|].
  destruct (c <? 65536) eqn:E4; (split; [discriminate | lia]).
Qed.

(** [bytes(s, 'utf8')] raises exactly when [s] holds a surrogate. *)
Lemma utf8_none_iff s : utf8 s = None <-> Exists surrogate s.
Proof.
  induction s as [|c s IH]; simpl.
  - split; [discriminate | intros H; inversion H].
  - destruct (utf8_char c) as [b|] eqn:Ec.
    + destruct (utf8 s) as [bs|].
      * split; [discriminate|]. intros H. inversion H as [? ? Hc|? ? Hs]; subst.
        -- apply utf8_char_none_iff in Hc. congruence.
        -- apply IH in Hs. discriminate.
      * split; [|reflexivity]. intros _. apply Exists_cons_tl. now apply IH.
    + split; [|reflexivity]. intros _. apply Exists_cons_hd.
      now apply utf8_char_none_iff.
Qed.

Lemma lor_bound n a b :
  0 <= n -> 0 <= a < 2 ^ n -> 0 <= b < 2 ^ n -> 0 <= Z.lor a b < 2 ^ n.
Proof.
  intros Hn Ha Hb. split; [apply Z.lor_nonneg; lia|].
  destruct (Z.eq_dec a 0) as [->|Ha0]; [rewrite Z.lor_0_l; lia|].
  destruct (Z.eq_dec b 0) as [->|Hb0]; [rewrite Z.lor_0_r; lia|].
  assert (Hl : 0 < Z.lor a b).
  { assert (0 <= Z.lor a b) by (apply Z.lor_nonneg; lia).
    assert (Z.lor a b <> 0) by (rewrite Z.lor_eq_0_iff; lia). lia. }
  apply Z.log2_lt_pow2; [exact Hl|].
  rewrite Z.log2_lor by lia.
  apply Z.max_lub_lt; apply Z.log2_lt_pow2; lia.
Qed.

Lemma continuation_octet x : octet (Z.lor 0x80 (Z.land x 0x3F)).
Proof.
  unfold octet. change 256 with (2 ^ 8). apply lor_bound; [lia | lia |].
  change 0x3F with (Z.ones 6). rewrite Z.land_ones by lia.
  pose proof (Z.mod_pos_bound x (2 ^ 6)). lia.
Qed.

Lemma leading_octet tag k c :
  0 <= k -> 0 <= tag < 256 -> 0 <= c < 2 ^ k * 256 ->
  octet (Z.lor tag (Z.shiftr c k)).
Proof.
  intros Hk Ht Hc. unfold octet. change 256 with (2 ^ 8).
  apply lor_bound; [lia | exact Ht |].
  rewrite Z.shiftr_div_pow2 by lia.
  split; [apply Z.div_pos; lia|]. apply Z.div_lt_upper_bound; lia.
Qed.

Lemma utf8_char_octets_match c :
  code_point c ->
  match utf8_char c with
  | Some b => Forall octet b /\ (1 <= List.length b <= 4)%nat
  | None => True
  end.
Proof.
  unfold code_point, utf8_char. intros Hc.
  destruct (c <? 128) eqn:E1.
  { split; [|simpl; lia]. repeat constructor; unfold octet; lia. }
  destruct (c <? 2048) eqn:E2.
  { split; [|simpl; lia].
    apply Forall_cons; [apply (leading_octet _ 6); lia|].
    apply Forall_cons; [apply continuation_octet | constructor]. }
  destruct ((55296 <=? c) && (c <=? 57343)); [exact I|].
  destruct (c <? 65536) eqn:E4.
  { split; [|simpl; lia].
    apply Forall_cons; [apply (leading_octet _ 12); lia|].
    repeat (apply Forall_cons; [apply continuation_octet|]). constructor. }
  split; [|simpl; lia].
  apply Forall_cons; [apply (leading_octet _ 18); lia|].
  repeat (apply Forall_cons; [apply continuation_octet|]). constructor.
Qed.

Lemma utf8_char_octets c b :
  code_point c -> utf8_char c = Some b ->
  Forall octet b /\ (1 <= List.length b <= 4)%nat.
Proof.
  intros Hc Hb. pose proof (utf8_char_octets_match c Hc) as H.
  now rewrite Hb in H.
Qed.

(** The encoding of a string of code points without surrogates exists and
    consists of octets, between one and four for each code point. *)
Theorem utf8_octets s :
  Forall code_point s -> ~ Exists surrogate s ->
  exists b,
    utf8 s = Some b /\ Forall octet b /\
    (List.length s <= List.length b <= 4 * List.length s)%nat.
Proof.
  intros Hcp Hns.
  destruct (utf8 s) as [b|] eqn:E; [|apply utf8_none_iff in E; contradiction].
  exists b. split; [reflexivity|]. clear Hns.
  revert b E. induction Hcp as [|c s Hc Hs IH]; simpl; intros b E.
  - injection E as <-. split; [constructor | simpl; lia].
  - destruct (utf8_char c) as [bc|] eqn:Ec; [|discriminate].
    destruct (utf8 s) as [bs|]; [|discriminate]. injection E as <-.
    destruct (utf8_char_octets c bc Hc Ec) as [Ho Hl].
    destruct (IH bs eq_refl) as [Ho' Hl'].
    split; [apply Forall_app; auto|]. rewrite length_app. lia.
Qed.

Lemma utf8_octets_witness :
  exists b,
    utf8 [104; 233; 0x20AC; 0x1F600] = Some b /\ Forall octet b /\
    (List.length [104%Z; 233%Z; 0x20AC%Z; 0x1F600%Z] <= List.length b
     <= 4 * List.length [104%Z; 233%Z; 0x20AC%Z; 0x1F600%Z])%nat.
Proof.
  apply (utf8_octets [104; 233; 0x20AC; 0x1F600]).
  - repeat constructor; unfold code_point; lia.
  - intros H. repeat (inversion H as [? ? Hc|? ? H']; subst;
                      [unfold surrogate in Hc; lia | clear H; rename H' into H]).
    inversion H.
Defined.

(** ** The signer, for any payload and any operator *)

Lemma sign_data_supplied_trace user tok data w :
  snd (sign_data user (Some tok) data w) = [].
Proof.
  destruct (sign_data_supplied_result user tok data w) as [H|[signed H]];
    now rewrite H.
Qed.

(** With a supplied token, whatever the payload is among those that
    [json.dumps] renders (a mapping, a list, a string, a number, nothing),
    the envelope carries it unchanged under [data] exactly when Python holds
    it true, always carries the identity and a signature of 128 lowercase
    hexadecimal digits, and has no other entry; the signature covers the
    canonical form of the payload in the first case and the identity alone
    in the second. *)
Theorem sign_data_envelope user tok data ub kb w :
  utf8 user = Some ub ->
  utf8 tok = Some kb ->
  renderable data ->
  exists envelope signature,
    sign_data user (Some tok) data w = (Ret envelope, []) /\
    dict_get (str "data") envelope = (if truthy data then Some data else None) /\
    dict_get (str "user") envelope = Some (VStr user) /\
    dict_get (str "signature") envelope = Some (VStr signature) /\
    signature =
      hex (hmac_sha512 kb
             (ub ++ if truthy data then Json.dumps_canonical data else [])) /\
    incl (keys envelope) [str "data"; str "user"; str "signature"] /\
    NoDup (keys envelope) /\
    Forall is_lower_hex signature /\
    List.length signature = 128%nat.
Proof.
  intros Hu Hk _. rewrite sign_data_supplied, Hu, Hk.
  destruct (truthy data); do 2 eexists; (split; [reflexivity|]);
    rewrite ?app_nil_r;
    (split; [reflexivity|]); (split; [reflexivity|]); (split; [reflexivity|]);
    (split; [reflexivity|]).
  - split; [apply incl_refl|].
    split; [|apply hmac_hexdigest_shape].
    repeat constructor; simpl; intuition discriminate.
  - split; [apply incl_tl, incl_refl|].
    split; [|apply hmac_hexdigest_shape].
    repeat constructor; simpl; intuition discriminate.
Qed.

Lemma sign_data_envelope_witness :
  renderable (VList [VStr (str "r"); VInt 0]) /\
  exists envelope signature,
    sign_data (str "alice") (Some (str "deadbeef"))
              (VList [VStr (str "r"); VInt 0]) offline = (Ret envelope, []) /\
    dict_get (str "data") envelope =
      (if truthy (VList [VStr (str "r"); VInt 0])
       then Some (VList [VStr (str "r"); VInt 0]) else None) /\
    dict_get (str "user") envelope = Some (VStr (str "alice")) /\
    dict_get (str "signature") envelope = Some (VStr signature) /\
    signature =
      hex (hmac_sha512 (str "deadbeef")
             (str "alice" ++
              if truthy (VList [VStr (str "r"); VInt 0])
              then Json.dumps_canonical (VList [VStr (str "r"); VInt 0])
              else [])) /\
    incl (keys envelope) [str "data"; str "user"; str "signature"] /\
    NoDup (keys envelope) /\
    Forall is_lower_hex signature /\
    List.length signature = 128%nat.
Proof.
  assert (Hr : renderable (VList [VStr (str "r"); VInt 0]))
    by (vm_compute; reflexivity).
  split; [exact Hr|].
  apply (sign_data_envelope (str "alice") (str "deadbeef")
           (VList [VStr (str "r"); VInt 0]) (str "alice") (str "deadbeef")
           offline); [reflexivity | reflexivity | exact Hr].
Defined.

(** With a supplied token and a payload that [json.dumps] renders, the
    signer fails in one way only, with [UnicodeEncodeError], and it does so
    exactly when the token or the identity holds a surrogate code point. *)
Theorem sign_data_unicode_error user tok data w :
  renderable data ->
  (fst (sign_data user (Some tok) data w) = Raise UnicodeEncodeError <->
   Exists surrogate tok \/ Exists surrogate user) /\
  (fst (sign_data user (Some tok) data w) = Raise UnicodeEncodeError \/
   exists envelope, fst (sign_data user (Some tok) data w) = Ret envelope).
Proof.
  intros _. rewrite sign_data_supplied. rewrite <- !utf8_none_iff.
  destruct (utf8 tok) as [kb|]; [|split; [split; auto | auto]].
  destruct (utf8 user) as [ub|]; [|split; [split; auto | auto]].
  destruct (truthy data); (split; [split; [discriminate | intros [H|H]; discriminate]|]);
    right; eexists; reflexivity.
Qed.

(** An identity that holds the lone surrogate U+DC80, as a command-line
    argument that is not valid UTF-8 gives. *)
Lemma sign_data_unicode_error_witness :
  renderable (VDict [(str "name", VStr (str "myrepo"))]) /\
  (fst (sign_data [0xDC80] (Some (str "deadbeef"))
          (VDict [(str "name", VStr (str "myrepo"))]) offline) =
     Raise UnicodeEncodeError <->
   Exists surrogate (str "deadbeef") \/ Exists surrogate [0xDC80]) /\
  (fst (sign_data [0xDC80] (Some (str "deadbeef"))
          (VDict [(str "name", VStr (str "myrepo"))]) offline) =
     Raise UnicodeEncodeError \/
   exists envelope,
     fst (sign_data [0xDC80] (Some (str "deadbeef"))
            (VDict [(str "name", VStr (str "myrepo"))]) offline) = Ret envelope).
Proof.
  assert (Hr : renderable (VDict [(str "name", VStr (str "myrepo"))]))
    by (vm_compute; reflexivity).
  split; [exact Hr|].
  apply (sign_data_unicode_error [0xDC80] (str "deadbeef")
           (VDict [(str "name", VStr (str "myrepo"))]) offline Hr).
Defined.

(** Without a token, what the operator types is replaced at once by the
    hexadecimal SHA-512 digest of its UTF-8 bytes, 128 lowercase digits:
    the signer then does what it does when that digest is supplied as the
    token, the prompt being the only event. *)
Theorem sign_data_prompt_digest user data secret b srv :
  utf8 secret = Some b ->
  sign_data user None data (mkWorld (Typed secret) srv) =
    (fst (sign_data user (Some (hex (SHA512.sha512 b))) data
            (mkWorld (Typed secret) srv)),
     [EvGetpass]) /\
  Forall is_lower_hex (hex (SHA512.sha512 b)) /\
  List.length (hex (SHA512.sha512 b)) = 128%nat.
Proof.
  intros Hb. rewrite sign_data_prompted. cbn [tty]. rewrite Hb.
  rewrite sign_data_supplied_trace.
  split; [reflexivity|]. split; [apply hex_lower|].
  now rewrite hex_length, sha512_length.
Qed.

Lemma sign_data_prompt_digest_witness :
  sign_data (str "alice") None VNone
            (mkWorld (Typed (str "hunter2")) (service (Fails Timeout))) =
    (fst (sign_data (str "alice")
            (Some (hex (SHA512.sha512 (str "hunter2")))) VNone
            (mkWorld (Typed (str "hunter2")) (service (Fails Timeout)))),
     [EvGetpass]) /\
  Forall is_lower_hex (hex (SHA512.sha512 (str "hunter2"))) /\
  List.length (hex (SHA512.sha512 (str "hunter2"))) = 128%nat.
Proof.
  apply (sign_data_prompt_digest (str "alice") VNone (str "hunter2")
           (str "hunter2") (service (Fails Timeout))).
  reflexivity.
Defined.

(** Only an interrupt is handled at the prompt: when the input ends there
    ([EOFError]) the exception leaves [blih] after the prompt, with nothing
    logged and no request made. *)
Theorem blih_prompt_end_of_input method resource user data srv :
  blih method resource user None data (mkWorld EndOfInput srv) =
    (Raise EOFError, [EvGetpass]).
Proof.
  apply blih_signing_raises; [|auto]. now rewrite sign_data_prompted.
Qed.

(** A typed secret that does not encode gives [UnicodeEncodeError] the same
    way. *)
Lemma blih_prompt_unencodable method resource user data srv secret :
  Exists surrogate secret ->
  blih method resource user None data (mkWorld (Typed secret) srv) =
    (Raise UnicodeEncodeError, [EvGetpass]).
Proof.
  intros Hs. apply utf8_none_iff in Hs.
  apply blih_signing_raises; [|auto].
  rewrite sign_data_prompted. cbn [tty]. now rewrite Hs.
Qed.

(** ** The commands *)

Lemma stdout_app t1 t2 : stdout (t1 ++ t2) = stdout t1 ++ stdout t2.
Proof. apply flat_map_app. Qed.

Lemma requests_app t1 t2 : requests (t1 ++ t2) = requests t1 ++ requests t2.
Proof. apply flat_map_app. Qed.

Lemma print_message_run data w :
  (message <- getitem data (str "message") ;;
   if truthy message then print (PValue message) else ret tt) w =
  message_verdict data.
Proof.
  rewrite bind_run. unfold getitem, message_verdict.
  destruct data as [| | | | |d]; try reflexivity.
  destruct (dict_get (str "message") d) as [m|]; [|reflexivity].
  unfold ret at 1. cbv beta iota. cbn [fst snd app].
  destruct (truthy m); reflexivity.
Qed.

Lemma message_command_run (m : M value) w :
  (data <- m ;;
   message <- getitem data (str "message") ;;
   if truthy message then print (PValue message) else ret tt) w =
  match m w with
  | (Ret data, t) => (fst (message_verdict data), t ++ snd (message_verdict data))
  | (Exit c, t) => (Exit c, t)
  | (Raise e, t) => (Raise e, t)
  end.
Proof.
  rewrite bind_run. destruct (m w) as [[data|c|e] t]; try reflexivity.
  now rewrite print_message_run.
Qed.

Lemma verdict_no_print rep : stdout (snd (verdict rep)) = [].
Proof.
  unfold verdict. destruct rep as [e|r]; [destruct e; reflexivity|].
  destruct (json r) as [body|]; [|reflexivity].
  destruct (status_code r =? 200); [reflexivity|].
  destruct body as [| | | | |d]; try reflexivity.
  destruct (dict_get (str "error") d); reflexivity.
Qed.

(** [blih] writes nothing to standard output. *)
Lemma blih_no_print method resource user token data w :
  stdout (snd (blih method resource user token data w)) = [].
Proof.
  destruct (sign_data_outcome user token data w)
    as (r & t & Hs & Ht & [->|[->|[->|[signed ->]]]]).
  - rewrite (blih_signing_exits _ _ _ _ _ _ _ _ Hs).
    destruct Ht; subst; reflexivity.
  - rewrite (blih_signing_raises _ _ _ _ _ _ _ _ Hs) by auto.
    destruct Ht; subst; reflexivity.
  - rewrite (blih_signing_raises _ _ _ _ _ _ _ _ Hs) by auto.
    destruct Ht; subst; reflexivity.
  - rewrite (blih_after_signing _ _ _ _ _ _ _ _ Hs). cbn [snd].
    unfold stdout at 1. rewrite flat_map_app. cbn [flat_map].
    fold (stdout (snd (verdict (server w (request_for method resource signed))))).
    rewrite verdict_no_print. destruct Ht; subst; reflexivity.
Qed.

Lemma message_verdict_stdout data :
  stdout (snd (message_verdict data)) = [] \/
  exists m, stdout (snd (message_verdict data)) = [PValue m].
Proof.
  unfold message_verdict. destruct data as [| | | | |d]; try (left; reflexivity).
  destruct (dict_get (str "message") d) as [m|]; [|left; reflexivity].
  destruct (truthy m); [right; exists m; reflexivity | left; reflexivity].
Qed.

(** With a supplied token that encodes, [blih] makes exactly one request,
    carrying the envelope of the identity and, when there is a payload, of
    the payload. *)
Lemma blih_supplied_run method resource user tok data w kb ub :
  utf8 tok = Some kb -> utf8 user = Some ub ->
  blih method resource user (Some tok) data w =
  let signed := if truthy data then payload_envelope user kb ub data
                else bare_envelope user kb ub in
  (fst (verdict (server w (request_for method resource signed))),
   EvRequest (request_for method resource signed) ::
   snd (verdict (server w (request_for method resource signed)))).
Proof.
  intros Hk Hu. cbv zeta.
  apply (blih_after_signing method resource user (Some tok) data w _ []).
  rewrite sign_data_supplied, Hk, Hu. destruct (truthy data); reflexivity.
Qed.

(** [repository_delete] asks for DELETE on [/repository/] followed by the
    name, signing the identity alone; when the answer is a 200 whose body
    is a mapping with a [message], it prints that message if Python holds
    it true, and nothing if it does not (an empty text). *)
Theorem repository_delete_success args w tok kb ub r d m :
  token args = Some tok ->
  utf8 tok = Some kb ->
  utf8 (user args) = Some ub ->
  server w (request_for delete (str "/repository/" ++ name args)
                        (bare_envelope (user args) kb ub)) = Responds r ->
  status_code r = 200 ->
  json r = Some (VDict d) ->
  dict_get (str "message") d = Some m ->
  repository_delete args w =
  (Ret tt,
   EvRequest (request_for delete (str "/repository/" ++ name args)
                          (bare_envelope (user args) kb ub)) ::
   if truthy m then [EvPrint (PValue m)] else []).
Proof.
  intros Ht Hk Hu Hr Hst Hj Hm. unfold repository_delete.
  rewrite message_command_run, Ht.
  rewrite (blih_supplied_run _ _ _ _ _ _ _ _ Hk Hu). cbv zeta. cbn [truthy].
  rewrite Hr. unfold verdict. rewrite Hj, Hst. cbn [Z.eqb Pos.eqb fst snd].
  unfold message_verdict. rewrite Hm. destruct (truthy m); reflexivity.
Qed.

Lemma repository_delete_success_witness :
  repository_delete alice_creates
    (answering EndOfInput
       (Responds (mkResponse 200
                    (Some (VDict [(str "message", VStr (str "Repository deleted"))]))))) =
  (Ret tt,
   EvRequest (request_for delete (str "/repository/" ++ name alice_creates)
                          (bare_envelope (user alice_creates)
                                         (str "deadbeef") (str "alice"))) ::
   if truthy (VStr (str "Repository deleted"))
   then [EvPrint (PValue (VStr (str "Repository deleted")))] else []).
Proof.
  apply (repository_delete_success alice_creates
           (answering EndOfInput
              (Responds (mkResponse 200
                           (Some (VDict [(str "message",
                                          VStr (str "Repository deleted"))])))))
           (str "deadbeef") (str "deadbeef") (str "alice")
           (mkResponse 200
              (Some (VDict [(str "message", VStr (str "Repository deleted"))])))
           [(str "message", VStr (str "Repository deleted"))]
           (VStr (str "Repository deleted"))); reflexivity.
Defined.

(** When the service answers 200 with a mapping that has no [message],
    [repository_delete] fails with [KeyError] after the request was made:
    the command has nothing to say although the request went through. *)
Theorem repository_delete_missing_message args w tok kb ub r d :
  token args = Some tok ->
  utf8 tok = Some kb ->
  utf8 (user args) = Some ub ->
  server w (request_for delete (str "/repository/" ++ name args)
                        (bare_envelope (user args) kb ub)) = Responds r ->
  status_code r = 200 ->
  json r = Some (VDict d) ->
  dict_get (str "message") d = None ->
  repository_delete args w =
  (Raise (KeyError (str "message")),
   [EvRequest (request_for delete (str "/repository/" ++ name args)
                           (bare_envelope (user args) kb ub))]).
Proof.
  intros Ht Hk Hu Hr Hst Hj Hm. unfold repository_delete.
  rewrite message_command_run, Ht.
  rewrite (blih_supplied_run _ _ _ _ _ _ _ _ Hk Hu). cbv zeta. cbn [truthy].
  rewrite Hr. unfold verdict. rewrite Hj, Hst. cbn [Z.eqb Pos.eqb fst snd].
  unfold message_verdict. rewrite Hm. reflexivity.
Qed.

Lemma repository_delete_missing_message_witness :
  repository_delete alice_creates
    (answering EndOfInput (Responds (mkResponse 200 (Some (VDict []))))) =
  (Raise (KeyError (str "message")),
   [EvRequest (request_for delete (str "/repository/" ++ name alice_creates)
                           (bare_envelope (user alice_creates)
                                          (str "deadbeef") (str "alice")))]).
Proof.
  apply (repository_delete_missing_message alice_creates
           (answering EndOfInput (Responds (mkResponse 200 (Some (VDict [])))))
           (str "deadbeef") (str "deadbeef") (str "alice")
           (mkResponse 200 (Some (VDict []))) []); reflexivity.
Defined.

Lemma blih_ret_inv method resource user token data w body :
  fst (blih method resource user token data w) = Ret body ->
  exists signed t r,
    sign_data user token data w = (Ret signed, t) /\
    server w (request_for method resource signed) = Responds r /\
    status_code r = 200 /\
    json r = Some body.
Proof.
  destruct (sign_data_outcome user token data w)
    as (r & t & Hs & Ht & [->|[->|[->|[signed ->]]]]).
  - rewrite (blih_signing_exits _ _ _ _ _ _ _ _ Hs). discriminate.
  - rewrite (blih_signing_raises _ _ _ _ _ _ _ _ Hs) by auto. discriminate.
  - rewrite (blih_signing_raises _ _ _ _ _ _ _ _ Hs) by auto. discriminate.
  - rewrite (blih_after_signing _ _ _ _ _ _ _ _ Hs). cbn [fst].
    intros Hv. destruct (verdict_ret _ _ Hv) as (resp & Hr & Hst & Hj).
    exists signed, t, resp. auto.
Qed.

Lemma message_verdict_printed data p :
  In p (stdout (snd (message_verdict data))) ->
  exists d message,
    data = VDict d /\ dict_get (str "message") d = Some message /\
    truthy message = true /\
    stdout (snd (message_verdict data)) = [PValue message] /\ p = PValue message.
Proof.
  unfold message_verdict. destruct data as [| | | | |d]; try (intros []).
  destruct (dict_get (str "message") d) as [m|] eqn:Hm; [|intros []].
  destruct (truthy m) eqn:Ht; [|intros []].
  cbn. intros [<-|[]]. exists d, m. auto.
Qed.

(** Unlike [repository_create], [repository_delete] never prints its
    arguments: whatever the operator and the service do, it prints nothing,
    or one object and no more, and that object is the [message] entry,
    true for Python, of the mapping that the service answered with status
    200 to the request of this run. *)
Theorem repository_delete_prints_reply_only args w :
  stdout (snd (repository_delete args w)) = [] \/
  exists signed t r d message,
    sign_data (user args) (token args) VNone w = (Ret signed, t) /\
    server w (request_for delete (str "/repository/" ++ name args) signed) =
      Responds r /\
    status_code r = 200 /\
    json r = Some (VDict d) /\
    dict_get (str "message") d = Some message /\
    truthy message = true /\
    stdout (snd (repository_delete args w)) = [PValue message].
Proof.
  unfold repository_delete. rewrite message_command_run.
  pose proof (blih_no_print delete (str "/repository/" ++ name args)
                (user args) (token args) VNone w) as Hb.
  pose proof (blih_ret_inv delete (str "/repository/" ++ name args)
                (user args) (token args) VNone w) as Hi.
  destruct (blih delete (str "/repository/" ++ name args) (user args)
              (token args) VNone w) as [[data|c|e] t]; cbn [fst snd] in *;
    try (left; exact Hb).
  rewrite stdout_app, Hb. cbn [app].
  destruct (stdout (snd (message_verdict data))) as [|p ps] eqn:Hp;
    [left; reflexivity | right].
  destruct (message_verdict_printed data p) as (d & m & -> & Hm & Ht & Hs & _);
    [rewrite Hp; now left|].
  destruct (Hi (VDict d) eq_refl) as (signed & t' & r & Hsd & Hr & Hst & Hj).
  exists signed, t', r, d, m. rewrite <- Hp, Hs. auto 10.
Qed.

Lemma for_each_print repos w :
  for_each repos (fun repo => print (PValue repo)) w =
  (Ret tt, map (fun repo => EvPrint (PValue repo)) repos).
Proof.
  induction repos as [|x xs IH]; [reflexivity|].
  cbn [for_each]. rewrite bind_run. cbn [print emit fst snd].
  now rewrite IH.
Qed.

Lemma iterate_run o w :
  iterate o w =
  match iteration o with
  | Some xs => (Ret xs, [])
  | None => (Raise TypeError, [])
  end.
Proof. destruct o; reflexivity. Qed.

Lemma print_repositories_run data w :
  (repositories <- getitem data (str "repositories") ;;
   repos <- iterate repositories ;;
   for_each repos (fun repo => print (PValue repo))) w =
  list_verdict data.
Proof.
  rewrite bind_run. unfold getitem, list_verdict.
  destruct data as [| | | | |d]; try reflexivity.
  destruct (dict_get (str "repositories") d) as [repositories|]; [|reflexivity].
  unfold ret at 1. cbv beta iota. cbn [fst snd app].
  rewrite bind_run, iterate_run.
  destruct (iteration repositories) as [repos|]; [|reflexivity].
  now rewrite for_each_print.
Qed.

Lemma repository_list_run args w :
  repository_list args w =
  match blih get (str "/repositories") (user args) (token args) VNone w with
  | (Ret data, t) => (fst (list_verdict data), t ++ snd (list_verdict data))
  | (Exit c, t) => (Exit c, t)
  | (Raise e, t) => (Raise e, t)
  end.
Proof.
  unfold repository_list. rewrite bind_run.
  destruct (blih get (str "/repositories") (user args) (token args) VNone w)
    as [[data|c|e] t]; try reflexivity.
  now rewrite print_repositories_run.
Qed.

(** [repository_list] asks for GET on [/repositories], signing the identity
    alone; when the answer is a 200 whose body is a mapping with a
    [repositories] entry that iterates, it prints what the entry iterates
    over, one object per line, in order: the elements of a list, the keys
    of a mapping. *)
Theorem repository_list_prints args w tok kb ub r d repositories repos :
  token args = Some tok ->
  utf8 tok = Some kb ->
  utf8 (user args) = Some ub ->
  server w (request_for get (str "/repositories")
                        (bare_envelope (user args) kb ub)) = Responds r ->
  status_code r = 200 ->
  json r = Some (VDict d) ->
  dict_get (str "repositories") d = Some repositories ->
  iteration repositories = Some repos ->
  repository_list args w =
  (Ret tt,
   EvRequest (request_for get (str "/repositories")
                          (bare_envelope (user args) kb ub)) ::
   map (fun repo => EvPrint (PValue repo)) repos).
Proof.
  intros Ht Hk Hu Hr Hst Hj Hd Hi. rewrite repository_list_run, Ht.
  rewrite (blih_supplied_run _ _ _ _ _ _ _ _ Hk Hu). cbv zeta. cbn [truthy].
  rewrite Hr. unfold verdict. rewrite Hj, Hst. cbn [Z.eqb Pos.eqb fst snd].
  unfold list_verdict. rewrite Hd, Hi. reflexivity.
Qed.

Lemma repository_list_prints_witness :
  repository_list alice_creates
    (answering EndOfInput
       (Responds (mkResponse 200
          (Some (VDict [(str "repositories",
                         VDict [(str "zeta", VDict []); (str "alpha", VDict [])])]))))) =
  (Ret tt,
   EvRequest (request_for get (str "/repositories")
                          (bare_envelope (user alice_creates)
                                         (str "deadbeef") (str "alice"))) ::
   map (fun repo => EvPrint (PValue repo))
       [VStr (str "zeta"); VStr (str "alpha")]).
Proof.
  apply (repository_list_prints alice_creates
           (answering EndOfInput
              (Responds (mkResponse 200
                 (Some (VDict [(str "repositories",
                                VDict [(str "zeta", VDict []);
                                       (str "alpha", VDict [])])])))))
           (str "deadbeef") (str "deadbeef") (str "alice")
           (mkResponse 200
              (Some (VDict [(str "repositories",
                             VDict [(str "zeta", VDict []);
                                    (str "alpha", VDict [])])])))
           [(str "repositories",
             VDict [(str "zeta", VDict []); (str "alpha", VDict [])])]
           (VDict [(str "zeta", VDict []); (str "alpha", VDict [])])
           [VStr (str "zeta"); VStr (str "alpha")]); reflexivity.
Defined.

(** When the [repositories] entry of the answer does not iterate ([null], a
    number, a truth value), [repository_list] fails with [TypeError] after
    the request, having printed nothing. *)
Theorem repository_list_not_iterable args w tok kb ub r d repositories :
  token args = Some tok ->
  utf8 tok = Some kb ->
  utf8 (user args) = Some ub ->
  server w (request_for get (str "/repositories")
                        (bare_envelope (user args) kb ub)) = Responds r ->
  status_code r = 200 ->
  json r = Some (VDict d) ->
  dict_get (str "repositories") d = Some repositories ->
  iteration repositories = None ->
  repository_list args w =
  (Raise TypeError,
   [EvRequest (request_for get (str "/repositories")
                           (bare_envelope (user args) kb ub))]).
Proof.
  intros Ht Hk Hu Hr Hst Hj Hd Hi. rewrite repository_list_run, Ht.
  rewrite (blih_supplied_run _ _ _ _ _ _ _ _ Hk Hu). cbv zeta. cbn [truthy].
  rewrite Hr. unfold verdict. rewrite Hj, Hst. cbn [Z.eqb Pos.eqb fst snd].
  unfold list_verdict. rewrite Hd, Hi. reflexivity.
Qed.

Lemma repository_list_not_iterable_witness :
  repository_list alice_creates
    (answering EndOfInput
       (Responds (mkResponse 200
                    (Some (VDict [(str "repositories", VNone)]))))) =
  (Raise TypeError,
   [EvRequest (request_for get (str "/repositories")
                           (bare_envelope (user alice_creates)
                                          (str "deadbeef") (str "alice")))]).
Proof.
  apply (repository_list_not_iterable alice_creates
           (answering EndOfInput
              (Responds (mkResponse 200
                           (Some (VDict [(str "repositories", VNone)])))))
           (str "deadbeef") (str "deadbeef") (str "alice")
           (mkResponse 200 (Some (VDict [(str "repositories", VNone)])))
           [(str "repositories", VNone)] VNone); reflexivity.
Defined.

Lemma message_verdict_no_request data : requests (snd (message_verdict data)) = [].
Proof.
  unfold message_verdict. destruct data as [| | | | |d]; try reflexivity.
  destruct (dict_get (str "message") d) as [m|]; [|reflexivity].
  destruct (truthy m); reflexivity.
Qed.

Lemma message_command_requests (m : M value) w :
  requests (snd ((data <- m ;;
                  message <- getitem data (str "message") ;;
                  if truthy message then print (PValue message) else ret tt) w)) =
  requests (snd (m w)).
Proof.
  rewrite message_command_run. destruct (m w) as [[data|c|e] t]; try reflexivity.
  cbn [snd]. now rewrite requests_app, message_verdict_no_request, app_nil_r.
Qed.

Lemma blih_supplied_requests method resource user tok data w kb ub :
  utf8 tok = Some kb -> utf8 user = Some ub ->
  requests (snd (blih method resource user (Some tok) data w)) =
  [request_for method resource
     (if truthy data then payload_envelope user kb ub data
      else bare_envelope user kb ub)].
Proof.
  intros Hk Hu. rewrite (blih_supplied_run _ _ _ _ _ _ _ _ Hk Hu). cbv zeta.
  cbn [snd]. change (EvRequest ?r :: ?t) with ([EvRequest r] ++ t).
  now rewrite requests_app, verdict_no_request.
Qed.

(** [repository_setacl] asks for POST on [/repository/<name>/acls] with the
    payload of the user and the rights, whatever the service answers; the
    text that is signed after the identity puts [acl] before [user], on two
    lines indented by four spaces. *)
Theorem repository_setacl_request args w tok kb ub :
  token (setacl_args args) = Some tok ->
  utf8 tok = Some kb ->
  utf8 (user (setacl_args args)) = Some ub ->
  requests (snd (repository_setacl args w)) =
    [request_for post
       ((str "/repository/" ++ name (setacl_args args)) ++ str "/acls")
       (payload_envelope (user (setacl_args args)) kb ub
          (VDict [(str "user", VStr (user_acl args));
                  (str "acl", VStr (acl args))]))] /\
  Json.dumps_canonical (VDict [(str "user", VStr (user_acl args));
                               (str "acl", VStr (acl args))]) =
    str "{" ++ [10] ++
    str "    " ++ Json.encode_basestring_ascii (str "acl") ++ str ": " ++
      Json.encode_basestring_ascii (acl args) ++ str "," ++ [10] ++
    str "    " ++ Json.encode_basestring_ascii (str "user") ++ str ": " ++
      Json.encode_basestring_ascii (user_acl args) ++ [10] ++
    str "}".
Proof.
  intros Ht Hk Hu. split.
  - unfold repository_setacl. rewrite message_command_requests, Ht.
    now rewrite (blih_supplied_requests _ _ _ _ _ _ _ _ Hk Hu).
  - unfold Json.dumps_canonical.
    rewrite iterencode_dict by discriminate.
    unfold Json.container, Json.newline_indent, Json.items.
    cbn [Json.sorted Json.insert fst snd map Json.join Json.iterencode].
    change (Json.str_leb (str "user") (str "acl")) with false.
    cbn [Json.sorted Json.insert fst snd map Json.join Json.iterencode].
    cbn [repeat Nat.mul Nat.add app].
    rewrite <- !app_assoc. reflexivity.
Qed.

Lemma repository_setacl_request_witness :
  requests (snd (repository_setacl
                   (mkSetaclArguments alice_creates (str "bob") (str "rw"))
                   offline)) =
    [request_for post
       ((str "/repository/" ++ str "myrepo") ++ str "/acls")
       (payload_envelope (str "alice") (str "deadbeef") (str "alice")
          (VDict [(str "user", VStr (str "bob"));
                  (str "acl", VStr (str "rw"))]))] /\
  Json.dumps_canonical (VDict [(str "user", VStr (str "bob"));
                               (str "acl", VStr (str "rw"))]) =
    str "{" ++ [10] ++
    str "    " ++ Json.encode_basestring_ascii (str "acl") ++ str ": " ++
      Json.encode_basestring_ascii (str "rw") ++ str "," ++ [10] ++
    str "    " ++ Json.encode_basestring_ascii (str "user") ++ str ": " ++
      Json.encode_basestring_ascii (str "bob") ++ [10] ++
    str "}".
Proof.
  apply (repository_setacl_request
           (mkSetaclArguments alice_creates (str "bob") (str "rw"))
           offline (str "deadbeef") (str "deadbeef") (str "alice"));
    reflexivity.
Defined.

Lemma list_verdict_no_request data : requests (snd (list_verdict data)) = [].
Proof.
  unfold list_verdict. destruct data as [| | | | |d]; try reflexivity.
  destruct (dict_get (str "repositories") d) as [o|]; [|reflexivity].
  destruct (iteration o) as [repos|]; [|reflexivity].
  cbn [snd]. induction repos as [|x xs IH]; [reflexivity | exact IH].
Qed.

(** The commands without payload sign the identity alone and make one
    request each, whatever the service answers: DELETE on
    [/repository/<name>], GET on [/repositories], DELETE on
    [/sshkey/<comment>]. *)
Theorem payloadless_commands_requests args dargs w tok kb ub :
  token args = Some tok ->
  sshkey_delete_args dargs = args ->
  utf8 tok = Some kb ->
  utf8 (user args) = Some ub ->
  requests (snd (repository_delete args w)) =
    [request_for delete (str "/repository/" ++ name args)
                 (bare_envelope (user args) kb ub)] /\
  requests (snd (repository_list args w)) =
    [request_for get (str "/repositories") (bare_envelope (user args) kb ub)] /\
  requests (snd (sshkey_delete dargs w)) =
    [request_for delete (str "/sshkey/" ++ comment dargs)
                 (bare_envelope (user args) kb ub)].
Proof.
  intros Ht Hd Hk Hu. split; [|split].
  - unfold repository_delete. rewrite message_command_requests, Ht.
    now rewrite (blih_supplied_requests _ _ _ _ _ _ _ _ Hk Hu).
  - rewrite repository_list_run, Ht.
    pose proof (blih_supplied_requests get (str "/repositories") (user args)
                  tok VNone w kb ub Hk Hu) as Hb.
    destruct (blih get (str "/repositories") (user args) (Some tok) VNone w)
      as [[data|c|e] t]; cbn [snd] in *; try exact Hb.
    now rewrite requests_app, list_verdict_no_request, app_nil_r.
  - unfold sshkey_delete. rewrite message_command_requests, Hd, Ht.
    now rewrite (blih_supplied_requests _ _ _ _ _ _ _ _ Hk Hu).
Qed.

Lemma payloadless_commands_requests_witness :
  requests (snd (repository_delete alice_creates offline)) =
    [request_for delete (str "/repository/" ++ name alice_creates)
                 (bare_envelope (user alice_creates) (str "deadbeef") (str "alice"))] /\
  requests (snd (repository_list alice_creates offline)) =
    [request_for get (str "/repositories")
                 (bare_envelope (user alice_creates) (str "deadbeef") (str "alice"))] /\
  requests (snd (sshkey_delete
                   (mkSshkeyDeleteArguments alice_creates (str "laptop")) offline)) =
    [request_for delete
       (str "/sshkey/" ++ comment (mkSshkeyDeleteArguments alice_creates (str "laptop")))
       (bare_envelope (user alice_creates) (str "deadbeef") (str "alice"))].
Proof.
  apply (payloadless_commands_requests alice_creates
           (mkSshkeyDeleteArguments alice_creates (str "laptop")) offline
           (str "deadbeef") (str "deadbeef") (str "alice")); reflexivity.
Defined.

(** ** Uploading a key *)

(** When the key file cannot be opened, for want of the file or of the
    right to read it, [sshkey_upload] prints the path and exits with status
    1 before anything else happens: no prompt even without a token, no
    request. *)
Theorem sshkey_upload_unreadable files args w :
  files (keyfile args) = FilePermissionError \/
  files (keyfile args) = FileNotFoundError ->
  sshkey_upload files args w =
  (Exit 1, [EvPrint (PValue (VStr (str "Can't open file : " ++ keyfile args)))]).
Proof.
  intros Hf. unfold sshkey_upload. rewrite bind_run.
  destruct Hf as [-> | ->]; reflexivity.
Qed.

Lemma sshkey_upload_unreadable_witness :
  sshkey_upload (fun _ => FileNotFoundError)
    (mkSshkeyUploadArguments
       (mkArguments (str "alice") None 0 (str "sshkey") (str "upload") [])
       (str "/home/alice/.ssh/id_rsa.pub"))
    (answering (Typed (str "hunter2")) (Fails Timeout)) =
  (Exit 1,
   [EvPrint (PValue (VStr (str "Can't open file : " ++
                           str "/home/alice/.ssh/id_rsa.pub")))]).
Proof.
  apply (sshkey_upload_unreadable (fun _ => FileNotFoundError)
           (mkSshkeyUploadArguments
              (mkArguments (str "alice") None 0 (str "sshkey") (str "upload") [])
              (str "/home/alice/.ssh/id_rsa.pub"))
           (answering (Typed (str "hunter2")) (Fails Timeout))).
  right. reflexivity.
Defined.

Lemma hexdigit_upper_safe n : always_safe (hexdigit_upper (n mod 16)) = true.
Proof.
  pose proof (Z.mod_pos_bound n 16 ltac:(lia)) as H.
  unfold hexdigit_upper, always_safe.
  destruct (n mod 16 <? 10) eqn:E; lia.
Qed.

Lemma quote_byte_safe b : Forall url_safe (quote_byte b).
Proof.
  unfold quote_byte, url_safe.
  destruct (always_safe b || (b =? 47)) eqn:E.
  - apply orb_true_iff in E. apply Forall_cons; [|constructor].
    destruct E as [E|E]; [now left | right; left; lia].
  - apply Forall_cons; [right; right; reflexivity|].
    apply Forall_cons; [left; apply hexdigit_upper_safe|].
    apply Forall_cons; [left; apply hexdigit_upper_safe | constructor].
Qed.

Lemma quote_run s b w :
  utf8 s = Some b -> quote s w = (Ret (flat_map quote_byte b), []).
Proof.
  intros Hb. unfold quote. rewrite bind_run.
  now rewrite (bytes_utf8_some _ _ _ Hb).
Qed.

(** When the key file reads, the key that is sent is the text of the file
    without the newlines at its ends, its UTF-8 octets percent-escaped: it
    holds only letters, digits, [_.-~/] and [%]-escapes in uppercase
    hexadecimal, and it is posted to [/sshkeys] as the [sshkey] entry of
    the payload. *)
Theorem sshkey_upload_request files args w content cb tok kb ub :
  files (keyfile args) = FileText content ->
  utf8 (strip_newlines content) = Some cb ->
  token (sshkey_upload_args args) = Some tok ->
  utf8 tok = Some kb ->
  utf8 (user (sshkey_upload_args args)) = Some ub ->
  requests (snd (sshkey_upload files args w)) =
    [request_for post (str "/sshkeys")
       (payload_envelope (user (sshkey_upload_args args)) kb ub
          (VDict [(str "sshkey", VStr (flat_map quote_byte cb))]))] /\
  Forall url_safe (flat_map quote_byte cb).
Proof.
  intros Hf Hc Ht Hk Hu. split.
  - unfold sshkey_upload. rewrite bind_run, Hf. unfold ret at 1.
    cbv beta iota. cbn [fst snd app].
    rewrite bind_run, (quote_run _ _ _ Hc). cbv beta iota. cbn [fst snd app].
    rewrite message_command_requests, Ht.
    now rewrite (blih_supplied_requests _ _ _ _ _ _ _ _ Hk Hu).
  - apply Forall_flat_map, Forall_forall. intros b _. apply quote_byte_safe.
Qed.

Lemma sshkey_upload_request_witness :
  requests
    (snd (sshkey_upload
            (fun _ => FileText (str "ssh-rsa AAAA+/= alice@host" ++ [10]))
            (mkSshkeyUploadArguments alice_creates (str "id_rsa.pub"))
            offline)) =
    [request_for post (str "/sshkeys")
       (payload_envelope (str "alice") (str "deadbeef") (str "alice")
          (VDict [(str "sshkey",
                   VStr (flat_map quote_byte (str "ssh-rsa AAAA+/= alice@host")))]))] /\
  Forall url_safe (flat_map quote_byte (str "ssh-rsa AAAA+/= alice@host")).
Proof.
  apply (sshkey_upload_request
           (fun _ => FileText (str "ssh-rsa AAAA+/= alice@host" ++ [10]))
           (mkSshkeyUploadArguments alice_creates (str "id_rsa.pub"))
           offline (str "ssh-rsa AAAA+/= alice@host" ++ [10])
           (str "ssh-rsa AAAA+/= alice@host")
           (str "deadbeef") (str "deadbeef") (str "alice")); reflexivity.
Defined.

Lemma lstrip_newlines_spec s :
  exists a, s = a ++ lstrip_newlines s /\ Forall newline a /\
            hd_error (lstrip_newlines s) <> Some 10.
Proof.
  induction s as [|c s (a & Ha & Hn & Hh)]; simpl.
  - exists []. split; [reflexivity|]. split; [constructor | discriminate].
  - destruct (c =? 10) eqn:E.
    + apply Z.eqb_eq in E. subst c. exists (10 :: a).
      split; [simpl; now rewrite <- Ha|]. split; [|exact Hh].
      constructor; [reflexivity | exact Hn].
    + exists []. split; [reflexivity|]. split; [constructor|].
      simpl. apply Z.eqb_neq in E. congruence.
Qed.

Lemma lstrip_newlines_rev_head s :
  hd_error (rev s) <> Some 10 ->
  hd_error (rev (lstrip_newlines s)) <> Some 10.
Proof.
  induction s as [|c s IH]; simpl; [auto|].
  destruct (c =? 10) eqn:E; [|auto].
  apply Z.eqb_eq in E. subst c. intros H. apply IH.
  destruct (rev s) as [|x xs]; [|exact H].
  simpl in H. congruence.
Qed.

(** [strip('\n')] takes newlines away from the two ends of the text and
    nothing else: the text is some newlines, the result, some newlines, and
    the result neither starts nor ends with a newline. *)
Theorem strip_newlines_spec s :
  exists before after,
    s = before ++ strip_newlines s ++ after /\
    Forall newline before /\ Forall newline after /\
    hd_error (strip_newlines s) <> Some 10 /\
    hd_error (rev (strip_newlines s)) <> Some 10.
Proof.
  unfold strip_newlines.
  destruct (lstrip_newlines_spec s) as (a & Ha & Hna & Hha).
  destruct (lstrip_newlines_spec (rev (lstrip_newlines s))) as (b & Hb & Hnb & Hhb).
  exists a, (rev b). split; [|split; [exact Hna|split; [|split]]].
  - rewrite <- rev_app_distr, <- Hb, rev_involutive. exact Ha.
  - apply Forall_rev. exact Hnb.
  - apply lstrip_newlines_rev_head. now rewrite rev_involutive.
  - now rewrite rev_involutive.
Qed.

(** ** The verbosity of [main] *)

(** For any count of [-v] flags the logging level is one of 50, 40, 30, 20
    and 10: it never goes below DEBUG, however many flags are given, and it
    never rises above CRITICAL, so that the fatal messages of [blih] are
    always let through. *)
Theorem logging_level_bounds verbose :
  0 <= verbose ->
  10 <= logging_level verbose <= CRITICAL /\
  logging_level verbose mod 10 = 0 /\
  logging_level verbose = 50 - 10 * Z.min verbose 4.
Proof.
  intros Hv. unfold logging_level, CRITICAL.
  destruct (5 <=? verbose) eqn:E;
    [apply Z.leb_le in E | apply Z.leb_gt in E].
  - rewrite Z.min_r by lia. repeat split; lia.
  - rewrite Z.min_l by lia. repeat split; try lia.
    replace (50 - verbose * 10) with ((5 - verbose) * 10) by lia.
    apply Z.mod_mul. lia.
Qed.

Lemma logging_level_bounds_witness :
  0 <= 7 /\
  10 <= logging_level 7 <= CRITICAL /\
  logging_level 7 mod 10 = 0 /\
  logging_level 7 = 50 - 10 * Z.min 7 4.
Proof.
  split; [lia|]. apply (logging_level_bounds 7). lia.
Defined.

(** ** More on the dispatcher and on the library models *)

(** When the transport raises [HTTPError], [blih] logs that an HTTP error
    occurred and exits with status 1, after the one request it made. *)
Theorem blih_http_error method resource user token data w signed t :
  sign_data user token data w = (Ret signed, t) ->
  server w (request_for method resource signed) = Fails HTTPError ->
  blih method resource user token data w =
  (Exit 1,
   t ++ [EvRequest (request_for method resource signed);
         EvCritical (VStr (str "An HTTP Error occured"))]).
Proof.
  intros Hs Hr. rewrite (blih_after_signing _ _ _ _ _ _ _ _ Hs), Hr.
  reflexivity.
Qed.

Lemma blih_http_error_witness :
  blih get (str "/repositories") (str "alice") (Some (str "deadbeef")) VNone
       (answering EndOfInput (Fails HTTPError)) =
  (Exit 1,
   [] ++ [EvRequest (request_for get (str "/repositories") alice_envelope);
          EvCritical (VStr (str "An HTTP Error occured"))]).
Proof.
  apply (blih_http_error get (str "/repositories") (str "alice")
           (Some (str "deadbeef")) VNone (answering EndOfInput (Fails HTTPError))
           alice_envelope []).
  - vm_compute. reflexivity.
  - reflexivity.
Defined.

(** Whatever code points a payload or an envelope holds, the JSON text
    written for it is pure ASCII, both in the canonical form that is signed
    and in the form that is sent; so encoding the canonical form to UTF-8
    cannot fail and gives one octet per character, the text itself. *)
Theorem dumps_ascii_only o :
  Forall ascii_char (Json.dumps_canonical o) /\
  Forall ascii_char (Json.dumps_default o) /\
  canonical_bytes o = Some (Json.dumps_canonical o) /\
  utf8 (Json.dumps_default o) = Some (Json.dumps_default o).
Proof.
  assert (Hd : Forall ascii_char (Json.dumps_default o)).
  { apply iterencode_ascii; repeat constructor; unfold ascii_char; simpl; lia. }
  split; [apply dumps_canonical_ascii|]. split; [exact Hd|].
  split; [apply dumps_canonical_utf8 | now apply utf8_ascii].
Qed.

Lemma dict_set_keys k v d :
  keys (dict_set k v d) =
  if existsb (str_eqb k) (keys d) then keys d else keys d ++ [k].
Proof.
  unfold keys. induction d as [|[k0 v0] d IH]; simpl; [reflexivity|].
  destruct (str_eqb k k0) eqn:E; simpl.
  - apply str_eqb_eq in E. now subst.
  - rewrite IH. now destruct (existsb (str_eqb k) (map fst d)).
Qed.

(** Assigning to a key of a dict and reading it back gives the value
    assigned, every other key reads as before, and the keys stay distinct:
    an existing key keeps its place and a new one goes last. *)
Theorem dict_set_get k k' v d :
  k' <> k ->
  dict_get k (dict_set k v d) = Some v /\
  dict_get k' (dict_set k v d) = dict_get k' d /\
  keys (dict_set k v d) =
    (if existsb (str_eqb k) (keys d) then keys d else keys d ++ [k]) /\
  (NoDup (keys d) -> NoDup (keys (dict_set k v d))).
Proof.
  intros Hne. split; [|split; [|split]].
  - induction d as [|[k0 v0] d IH]; simpl.
    + now rewrite str_eqb_refl.
    + destruct (str_eqb k k0) eqn:E; simpl; [now rewrite str_eqb_refl|].
      now rewrite E.
  - induction d as [|[k0 v0] d IH]; simpl.
    + now rewrite (str_eqb_neq _ _ Hne).
    + destruct (str_eqb k k0) eqn:E; simpl.
      * apply str_eqb_eq in E. subst k0. now rewrite (str_eqb_neq _ _ Hne).
      * now rewrite IH.
  - apply dict_set_keys.
  - intros Hnd. rewrite dict_set_keys.
    destruct (existsb (str_eqb k) (keys d)) eqn:E; [exact Hnd|].
    apply NoDup_app; [exact Hnd | repeat constructor; intros [] |].
    intros x Hx [Heq|[]]. subst x.
    assert (Ht : existsb (str_eqb k) (keys d) = true).
    { apply existsb_exists. exists k. split; [exact Hx | apply str_eqb_refl]. }
    congruence.
Qed.

Lemma dict_set_get_witness :
  str "user" <> str "data" /\
  dict_get (str "data")
           (dict_set (str "data") VNone [(str "user", VStr (str "alice"))]) =
    Some VNone /\
  dict_get (str "user")
           (dict_set (str "data") VNone [(str "user", VStr (str "alice"))]) =
    dict_get (str "user") [(str "user", VStr (str "alice"))].
Proof.
  split; [discriminate|].
  destruct (dict_set_get (str "data") (str "user") VNone
              [(str "user", VStr (str "alice"))]) as (H1 & H2 & _).
  - discriminate.
  - split; [exact H1 | exact H2].
Defined.
